(** * github-mng-bot: the snapshot store, the OAuth linkage and the
      repository-list cache of [index.js]

    The development embeds the HTTP handlers of [index.js] that read and
    write the two stores of the bot: the MongoDB collection of users (the
    durable store) and the JSON file [data.json] (the snapshot store).

    Conventions of the embedding:
    - instants are [Z], milliseconds since the epoch; an ISO-8601 string
      produced by [toISOString] is represented by the instant it denotes;
    - a handler runs at one instant [now]: every clock read of one request
      sees the same value;
    - the MongoDB driver is reliable (a query or a save that fails inside
      the driver is outside the model); the file system is not: the file may
      be absent, unreadable or unparsable, and a write may fail;
    - what GitHub and Telegram answer during a request is an input of the
      handler (an [Upstream] record), and every request sent is appended to
      the log [net] of the world;
    - a [telegramId] taken from a request body or path is a string; the
      query parameters of the OAuth endpoints, which the handlers test for
      presence, are optional strings. *)

From stdpp Require Import gmap strings list fin_maps.

Local Open Scope Z_scope.

(** ** Data model *)

(** An element of [userSchema.repositories]. *)
Record RepoRef := mkRepoRef {
  rr_name : string;
  rr_full_name : string;
  rr_url : string;
  rr_private : bool
}.

(** A repository object of the GitHub REST API, with the fields that
    [index.js] reads. *)
Record GhRepo := mkGhRepo {
  name : string;
  full_name : string;
  html_url : string;
  private : bool
}.

(** The fields of [userSchema] other than the unique key [telegramId]. *)
Record UserData := mkUserData {
  githubId : option Z;
  githubAccessToken : option string;
  githubUsername : option string;
  isAgreed : bool;
  isConnected : bool;
  createdAt : Z;
  lastActive : Z;
  repositories : list RepoRef
}.

(** A document of the [User] model. *)
Record User := mkUser {
  telegramId : string;
  data : UserData
}.

(** The values [index.js] stores under the keys of [data.json], as they
    read back after [JSON.stringify] and [JSON.parse]: a user document, a
    repository-list entry [{data, cachedAt}], the marker
    [{telegramId, timestamp}] of a started authorization, and the ISO
    string of [lastUpdated]. *)
Inductive CacheValue :=
| JUser (u : User)
| JRepos (payload : list GhRepo) (cachedAt : Z)
| JOauth (id : string) (timestamp : Z)
| JDate (t : Z).

(** The state of [CACHE_FILE]: missing, present but unreadable or not
    parsable as JSON, or holding a JSON object, which is all [writeCache]
    ever writes. A file edited by hand into another JSON value ([null], an
    array, a number) is outside the model. *)
Inductive File :=
| FileAbsent
| FileCorrupt
| FileObject (c : gmap string CacheValue).

(** The messages [/newrepo] sends to the chat with [ctx.reply]. *)
Inductive Reply :=
| ReplyUsage
| ReplyConnectFirst
| ReplyCreating
| ReplyCreated (repo : GhRepo)
| ReplyCreateError (msg : string).

(** Requests sent to GitHub and Telegram. *)
Inductive NetCall :=
| PostAccessToken (code : string)
| GetGithubUser (token : string)
| GetUserRepos (token : string)
| PostUserRepos (token repo_name repo_description : string) (repo_private : bool)
| TelegramSendMessage (chat : string)
| TelegramReply (chat : string) (r : Reply).

(** The state the handlers act on: the collection of users keyed by
    [telegramId], the snapshot file and whether it can be written, and the
    log of the requests sent so far. *)
Record World := mkWorld {
  db : gmap string UserData;
  file : File;
  writable : bool;
  net : list NetCall
}.

Definition set_db (d : gmap string UserData) (w : World) : World :=
  mkWorld d (file w) (writable w) (net w).
Definition set_file (f : File) (w : World) : World :=
  mkWorld (db w) f (writable w) (net w).
Definition log_call (c : NetCall) (w : World) : World :=
  mkWorld (db w) (file w) (writable w) (net w ++ [c]).

(** JavaScript exceptions. An axios error carries the message of the
    response body when there is one. *)
Inductive Exn :=
| TypeError (msg : string)
| SyntaxError (msg : string)
| FsError (msg : string)
| ValidationError (msg : string)
| AxiosError (msg : string) (response_message : option string).

Definition message (e : Exn) : string :=
  match e with
  | TypeError m | SyntaxError m | FsError m | ValidationError m
  | AxiosError m _ => m
  end.

(** ** Computations: state of the world and exceptions

    Effects done before an exception is thrown stay done. *)

Inductive Outcome (A : Type) :=
| Returned (a : A)
| Thrown (e : Exn).
Arguments Returned {A} a.
Arguments Thrown {A} e.

Definition M (A : Type) : Type := World → Outcome A * World.

Definition ret {A} (a : A) : M A := λ w, (Returned a, w).
Definition throw {A} (e : Exn) : M A := λ w, (Thrown e, w).
Definition bind {A B} (m : M A) (k : A → M B) : M B :=
  λ w, match m w with
       | (Returned a, w') => k a w'
       | (Thrown e, w') => (Thrown e, w')
       end.
Definition try_catch {A} (m : M A) (handler : Exn → M A) : M A :=
  λ w, match m w with
       | (Returned a, w') => (Returned a, w')
       | (Thrown e, w') => handler e w'
       end.

Notation "x <- m ;; k" := (bind m (λ x, k))
  (at level 100, m at next level, right associativity).
Notation "m ;;; k" := (bind m (λ _, k))
  (at level 100, right associativity).

(** ** Snapshot store: [readCache], [writeCache], [getFromCache] *)

Definition fs_existsSync : M bool :=
  λ w, (Returned (match file w with FileAbsent => false | _ => true end), w).

(** [JSON.parse(fs.readFileSync(CACHE_FILE, 'utf8'))]. *)
Definition fs_read_parse : M (gmap string CacheValue) :=
  λ w, match file w with
       | FileObject c => (Returned c, w)
       | FileCorrupt => (Thrown (SyntaxError "Unexpected token in JSON"), w)
       | FileAbsent => (Thrown (FsError "ENOENT: no such file or directory"), w)
       end.

(** [fs.writeFileSync(CACHE_FILE, JSON.stringify(cache, null, 2), 'utf8')]. *)
Definition fs_writeFileSync (c : gmap string CacheValue) : M unit :=
  λ w, if writable w then (Returned tt, set_file (FileObject c) w)
       else (Thrown (FsError "EACCES: permission denied"), w).

(** The object [cache] is modelled by its own data properties. A name that
    every JavaScript object inherits from [Object.prototype] ([constructor],
    [toString], [__proto__], ...) is outside this model: read on an object
    that does not hold it, it yields the inherited member, and [__proto__]
    cannot be stored at all. No handler builds such a key: every key passed
    to [writeCache] and [getFromCache] is [user_], [repos_] or [oauth_]
    followed by a chat identity (see [cache_key]). *)
Definition readCache : M (gmap string CacheValue) :=
  try_catch
    (present <- fs_existsSync ;;
     if present then fs_read_parse else ret ∅)
    (λ _, ret ∅).

Definition writeCache (now : Z) (key : string) (value : CacheValue) : M unit :=
  try_catch
    (cache <- readCache ;;
     let cache := <[key := value]> cache in
     let cache := <["lastUpdated" := JDate now]> cache in
     fs_writeFileSync cache)
    (λ _, ret tt).

Definition getFromCache (key : string) : M (option CacheValue) :=
  cache <- readCache ;;
  ret (cache !! key).

(** ** Durable store: the [User] model of Mongoose *)

(** [User.findOne({ telegramId })]. *)
Definition User_findOne (id : string) : M (option User) :=
  λ w, (Returned (mkUser id <$> db w !! id), w).

(** [document.save()] of a Mongoose document: the validator of
    [telegramId: { required: true }] rejects a missing or empty string;
    otherwise the document replaces the stored one. *)
Definition doc_save (u : User) : M unit :=
  if String.eqb (telegramId u) "" then
    throw (ValidationError
             "User validation failed: telegramId: Path `telegramId` is required.")
  else λ w, (Returned tt, set_db (<[telegramId u := data u]> (db w)) w).

(** The defaults of [userSchema] for a document created at [now]. *)
Definition schema_defaults (now : Z) : UserData :=
  mkUserData None None None false false now now [].

(** [new User({ telegramId, isAgreed: true, lastActive: new Date() })]. *)
Definition new_agreed_User (now : Z) (id : string) : User :=
  mkUser id (mkUserData None None None true false now now []).

(** [User.findOneAndUpdate({ telegramId }, { githubId, githubAccessToken,
    githubUsername, isConnected: true, lastActive }, { upsert: true,
    new: true })]: the other fields keep their value, or take the schema
    default when the document is inserted. Update validators are off. *)
Definition link_data (now : Z) (gid : Z) (access_token login : string)
    (old : UserData) : UserData :=
  mkUserData (Some gid) (Some access_token) (Some login)
    (isAgreed old) true (createdAt old) now (repositories old).

Definition User_findOneAndUpdate (now : Z) (id : string)
    (gid : Z) (access_token login : string) : M User :=
  λ w, let old := default (schema_defaults now) (db w !! id) in
       let d := link_data now gid access_token login old in
       (Returned (mkUser id d), set_db (<[id := d]> (db w)) w).

(** What the variable [user] of a handler holds: a plain object parsed from
    the snapshot file, or a Mongoose document. *)
Inductive UserRef :=
| Plain (v : CacheValue)
| Doc (u : User).

(** [user.save()]: a plain object has no such method. *)
Definition save (r : UserRef) : M unit :=
  match r with
  | Doc u => doc_save u
  | Plain _ => throw (TypeError "user.save is not a function")
  end.

(** What [JSON.stringify] and [res.json] make of [user]. *)
Definition toJSON (r : UserRef) : CacheValue :=
  match r with
  | Doc u => JUser u
  | Plain v => v
  end.

Definition agree_data (now : Z) (d : UserData) : UserData :=
  mkUserData (githubId d) (githubAccessToken d) (githubUsername d)
    true (isConnected d) (createdAt d) now (repositories d).

(** [user.isAgreed = true; user.lastActive = new Date()]. On a plain object
    of another shape the two properties are added to the local copy, which
    no later statement reads. *)
Definition set_agreed (now : Z) (r : UserRef) : UserRef :=
  match r with
  | Doc u => Doc (mkUser (telegramId u) (agree_data now (data u)))
  | Plain (JUser u) => Plain (JUser (mkUser (telegramId u) (agree_data now (data u))))
  | Plain v => Plain v
  end.

(** [repos.map(repo => ({ name, full_name, url: repo.html_url, private }))]. *)
Definition to_ref (repo : GhRepo) : RepoRef :=
  mkRepoRef (name repo) (full_name repo) (html_url repo) (private repo).

Definition set_repositories (l : list RepoRef) (u : User) : User :=
  let d := data u in
  mkUser (telegramId u)
    (mkUserData (githubId d) (githubAccessToken d) (githubUsername d)
       (isAgreed d) (isConnected d) (createdAt d) (lastActive d) l).

(** ** The outside: GitHub and Telegram *)

Record Profile := mkProfile {
  gh_id : Z;
  gh_login : string
}.

(** How the outside answers during one request: each function gives the
    outcome of the corresponding HTTP call. [post_access_token] returns
    [tokenResponse.data.access_token]. *)
Record Upstream := mkUpstream {
  post_access_token : string → Outcome (option string);
  get_github_user : string → Outcome Profile;
  get_user_repos : string → Outcome (list GhRepo);
  post_user_repos : string → string → string → bool → Outcome GhRepo;
  telegram_sendMessage : string → Outcome unit
}.

(** An HTTP request: logged, then answered. *)
Definition request {A} (c : NetCall) (answer : Outcome A) : M A :=
  λ w, (answer, log_call c w).

Record Config := mkConfig {
  GITHUB_CLIENT_ID : string;
  FRONTEND_URL : string
}.

(** ** HTTP handlers *)

Inductive Body :=
| BEmptyObject
| BValue (v : CacheValue)
| BRepos (l : list GhRepo)
| BSuccess (msg : string)
| BFailure (error : string)
| BError (error : string).

(** [RRedirectError m] is the redirection to
    ['/error?error=' + encodeURIComponent(m)]; [RUnhandled] is an exception
    that escapes the handler. *)
Inductive HttpResp :=
| RJson (status : Z) (b : Body)
| RRedirect (url : string)
| RRedirectError (msg : string)
| RUnhandled (e : Exn).

Definition run_handler (m : M HttpResp) (w : World) : HttpResp * World :=
  match m w with
  | (Returned r, w') => (r, w')
  | (Thrown e, w') => (RUnhandled e, w')
  end.

(** A request parameter that is present and truthy. *)
Definition present (s : option string) : option string :=
  match s with
  | Some s => if String.eqb s "" then None else Some s
  | None => None
  end.

(** [app.post('/api/user/agree')]: the terms-agreement operation. *)
Definition api_user_agree (now : Z) (id : string) : World → HttpResp * World :=
  run_handler
    (try_catch
       (cached <- getFromCache ("user_" +:+ id) ;;
        user <- match cached with
                | Some v => ret (Some (Plain v))
                | None => found <- User_findOne id ;; ret (Doc <$> found)
                end ;;
        user <- match user with
                | Some r =>
                    let r := set_agreed now r in
                    save r ;;; ret r
                | None =>
                    let u := new_agreed_User now id in
                    doc_save u ;;; ret (Doc u)
                end ;;
        writeCache now ("user_" +:+ id) (toJSON user) ;;;
        ret (RJson 200 (BSuccess "Agreement accepted")))
       (λ error, ret (RJson 500 (BFailure (message error))))).

(** [app.get('/api/user/:telegramId')]: getUser. *)
Definition api_user_get (now : Z) (id : string) : World → HttpResp * World :=
  run_handler
    (try_catch
       (cached <- getFromCache ("user_" +:+ id) ;;
        user <- match cached with
                | Some v => ret (Some (Plain v))
                | None =>
                    found <- User_findOne id ;;
                    match found with
                    | Some u => writeCache now ("user_" +:+ id) (JUser u)
                    | None => ret tt
                    end ;;;
                    ret (Doc <$> found)
                end ;;
        ret (RJson 200 (match user with
                        | Some r => BValue (toJSON r)
                        | None => BEmptyObject
                        end)))
       (λ error, ret (RJson 500 (BError (message error))))).

Definition githubAuthUrl (cfg : Config) (id : string) : string :=
  "https://github.com/login/oauth/authorize?client_id=" +:+ GITHUB_CLIENT_ID cfg
  +:+ "&scope=user repo delete_repo&redirect_uri=" +:+ FRONTEND_URL cfg
  +:+ "/auth/github/callback&state=" +:+ id.

(** [app.get('/auth/github')]: beginAuthorization. *)
Definition auth_github (cfg : Config) (now : Z) (query_telegramId : option string)
    : World → HttpResp * World :=
  run_handler
    (match present query_telegramId with
     | None => ret (RRedirect "/error?error=No Telegram ID")
     | Some id =>
         writeCache now ("oauth_" +:+ id) (JOauth id now) ;;;
         ret (RRedirect (githubAuthUrl cfg id))
     end).

(** [app.get('/auth/github/callback')]: completeAuthorization. *)
Definition auth_github_callback (up : Upstream) (now : Z)
    (query_code query_state : option string) : World → HttpResp * World :=
  run_handler
    (try_catch
       (match present query_code, present query_state with
        | Some code, Some id =>
            access_token <- request (PostAccessToken code) (post_access_token up code) ;;
            match present access_token with
            | None => ret (RRedirect "/error?error=No access token")
            | Some access_token =>
                githubUser <- request (GetGithubUser access_token)
                                (get_github_user up access_token) ;;
                user <- User_findOneAndUpdate now id (gh_id githubUser)
                          access_token (gh_login githubUser) ;;
                writeCache now ("user_" +:+ id) (JUser user) ;;;
                try_catch
                  (request (TelegramSendMessage id) (telegram_sendMessage up id))
                  (λ botError, ret tt) ;;;
                ret (RRedirect ("/success?telegramId=" +:+ id))
            end
        | _, _ => ret (RRedirect "/error?error=Missing parameters")
        end)
       (λ error, ret (RRedirectError (message error)))).

Definition not_authenticated : M HttpResp :=
  ret (RJson 401 (BError "Not authenticated")).

(** [cachedRepos && Date.now() - new Date(cachedRepos.cachedAt).getTime()
    < 5 * 60 * 1000], with the payload [cachedRepos.data] when it holds. An
    entry of another shape has no [cachedAt]: the date is invalid, its time
    is NaN and the comparison is false. *)
Definition fresh_payload (now : Z) (cachedRepos : option CacheValue)
    : option (list GhRepo) :=
  match cachedRepos with
  | Some (JRepos payload cachedAt) =>
      if now - cachedAt <? 5 * 60 * 1000 then Some payload else None
  | _ => None
  end.

(** [app.post('/api/github/repos')]: listRepositories. *)
Definition api_github_repos (up : Upstream) (now : Z) (id : string)
    : World → HttpResp * World :=
  run_handler
    (try_catch
       (found <- User_findOne id ;;
        match found with
        | None => not_authenticated
        | Some user =>
            match present (githubAccessToken (data user)) with
            | None => not_authenticated
            | Some token =>
                let cacheKey := "repos_" +:+ id in
                cachedRepos <- getFromCache cacheKey ;;
                match fresh_payload now cachedRepos with
                | Some payload => ret (RJson 200 (BRepos payload))
                | None =>
                    repos <- request (GetUserRepos token) (get_user_repos up token) ;;
                    let user := set_repositories (map to_ref repos) user in
                    doc_save user ;;;
                    writeCache now cacheKey (JRepos repos now) ;;;
                    writeCache now ("user_" +:+ id) (JUser user) ;;;
                    ret (RJson 200 (BRepos repos))
                end
            end
        end)
       (λ error, ret (RJson 500 (BError (message error))))).

(** ** The chat command [/newrepo]: createRepository *)

(** [args] is [ctx.message.text.split(' ').slice(1)]; the result is
    [name], [description] and [isPrivate], or nothing when
    [args.length < 1]. *)
Definition newrepo_args (args : list string) : option (string * string * bool) :=
  match args with
  | [] => None
  | arg0 :: _ =>
      let isPrivate := bool_decide (last args = Some "private") in
      let stop := (length args - (if isPrivate then 1 else 0))%nat in
      Some (arg0, String.concat " " (drop 1 (take stop args)), isPrivate)
  end.

(** [error.response?.data?.message || error.message]. *)
Definition error_text (e : Exn) : string :=
  match e with
  | AxiosError m (Some response_message) =>
      if String.eqb response_message "" then m else response_message
  | _ => message e
  end.

(** [ctx.reply(...)] in the chat of the sender. *)
Definition ctx_reply (chat : string) (r : Reply) : M unit :=
  λ w, (Returned tt, log_call (TelegramReply chat r) w).

(** [bot.command('newrepo')] for the sender [id]: createRepository. *)
Definition bot_newrepo (up : Upstream) (args : list string) (id : string)
    : World → World :=
  λ w, snd
    ((match newrepo_args args with
      | None => ctx_reply id ReplyUsage
      | Some (repo_name, description, isPrivate) =>
          try_catch
            (found <- User_findOne id ;;
             match found ≫= (λ user, present (githubAccessToken (data user))) with
             | None => ctx_reply id ReplyConnectFirst
             | Some token =>
                 ctx_reply id ReplyCreating ;;;
                 repo <- request (PostUserRepos token repo_name description isPrivate)
                           (post_user_repos up token repo_name description isPrivate) ;;
                 ctx_reply id (ReplyCreated repo)
             end)
            (λ error, ctx_reply id (ReplyCreateError (error_text error)))
      end) w).

(** ** Sequences of operations *)

(** The public operations, and what the environment may do to the snapshot
    file between two requests: lose it (a restart on an ephemeral disk),
    damage it, or change whether it can be written. *)
Inductive Op :=
| OpAgree (now : Z) (id : string)
| OpGetUser (now : Z) (id : string)
| OpBeginAuthorization (cfg : Config) (now : Z) (query_telegramId : option string)
| OpCompleteAuthorization (up : Upstream) (now : Z) (query_code query_state : option string)
| OpListRepositories (up : Upstream) (now : Z) (id : string)
| OpCreateRepository (up : Upstream) (args : list string) (id : string)
| EnvFileLost
| EnvFileDamaged
| EnvWritable (b : bool).

Definition step (o : Op) (w : World) : World :=
  match o with
  | OpAgree now id => snd (api_user_agree now id w)
  | OpGetUser now id => snd (api_user_get now id w)
  | OpBeginAuthorization cfg now q => snd (auth_github cfg now q w)
  | OpCompleteAuthorization up now c s => snd (auth_github_callback up now c s w)
  | OpListRepositories up now id => snd (api_github_repos up now id w)
  | OpCreateRepository up args id => bot_newrepo up args id w
  | EnvFileLost => set_file FileAbsent w
  | EnvFileDamaged => set_file FileCorrupt w
  | EnvWritable b => mkWorld (db w) (file w) b (net w)
  end.

Definition run (ops : list Op) (w : World) : World :=
  foldl (λ w o, step o w) w ops.

(** A fresh deployment: no user, no snapshot file, nothing sent. *)
Definition initial : World := mkWorld ∅ FileAbsent true [].

(** ** Properties of a user record *)

(** The record holds a non-empty token. *)
Definition has_token (d : UserData) : Prop :=
  ∃ t, githubAccessToken d = Some t ∧ t ≠ "".

(** [isConnected] is set exactly when the record holds a non-empty token. *)
Definition linked_iff_token (d : UserData) : Prop :=
  isConnected d = true ↔ has_token d.

(** What a read of the snapshot file yields. *)
Definition cache_of (f : File) : gmap string CacheValue :=
  match f with
  | FileObject c => c
  | FileAbsent | FileCorrupt => ∅
  end.

(** The keys the handlers build: [`user_${telegramId}`],
    [`repos_${telegramId}`] and [`oauth_${telegramId}`]. *)
Definition cache_key (k : string) : Prop :=
  ∃ id, k = "user_" +:+ id ∨ k = "repos_" +:+ id ∨ k = "oauth_" +:+ id.

(** The requests of a log that go to the hosting provider. *)
Definition is_hosting_call (c : NetCall) : bool :=
  match c with
  | TelegramSendMessage _ | TelegramReply _ _ => false
  | _ => true
  end.

Definition hosting_calls (l : list NetCall) : list NetCall :=
  List.filter is_hosting_call l.

(** The file after a write that went through. *)
Definition written (now : Z) (key : string) (value : CacheValue) (f : File) : File :=
  FileObject (<["lastUpdated" := JDate now]> (<[key := value]> (cache_of f))).

(** The world after [writeCache]: the write is lost when the file cannot be
    written. *)
Definition wrote (now : Z) (key : string) (value : CacheValue) (w : World) : World :=
  if writable w then set_file (written now key value (file w)) w else w.

(** The part of the authorization URL that precedes the state parameter. *)
Definition authorize_prefix (cfg : Config) : string :=
  "https://github.com/login/oauth/authorize?client_id=" +:+ GITHUB_CLIENT_ID cfg
  +:+ "&scope=user repo delete_repo&redirect_uri=" +:+ FRONTEND_URL cfg
  +:+ "/auth/github/callback".

(** Every record of the durable store and every user document of the
    snapshot store is linked exactly when it holds a non-empty token. *)
Definition records_ok (w : World) : Prop :=
  (∀ id d, db w !! id = Some d → linked_iff_token d) ∧
  (∀ k u, cache_of (file w) !! k = Some (JUser u) → linked_iff_token (data u)).

(** ** Chat commands that read the linkage *)

(** The message [/start] answers with: [sendMainMenu], [sendConnectPrompt]
    or [sendAgreement]. *)
Inductive Screen :=
| MainMenu
| ConnectPrompt
| Agreement.

(** [user.isAgreed] and [user.githubAccessToken] of a plain object: only a
    user document has these properties. *)
Definition json_isAgreed (v : CacheValue) : bool :=
  match v with
  | JUser u => isAgreed (data u)
  | _ => false
  end.

Definition json_githubAccessToken (v : CacheValue) : option string :=
  match v with
  | JUser u => githubAccessToken (data u)
  | _ => None
  end.

(** [axios.get(`${process.env.FRONTEND_URL}/api/user/${telegramId}`)]: the
    bot asks the HTTP endpoint of its own process, [FRONTEND_URL] being the
    address the OAuth callback of this process is registered under.
    [reachable] tells whether the request gets through; axios throws on a
    status other than 2xx. The result is [response.data]. *)
Definition get_api_user (reachable : bool) (now : Z) (id : string) : M Body :=
  λ w, if reachable then
         match api_user_get now id w with
         | (RJson 200 b, w') => (Returned b, w')
         | (_, w') =>
             (Thrown (AxiosError "Request failed with status code 500" None), w')
         end
       else (Thrown (AxiosError "connect ECONNREFUSED" None), w).

(** [if (user && user.isAgreed) { if (user.githubAccessToken) ... }]. *)
Definition choose_screen (user : Body) : Screen :=
  match user with
  | BValue v =>
      if json_isAgreed v then
        match present (json_githubAccessToken v) with
        | Some _ => MainMenu
        | None => ConnectPrompt
        end
      else Agreement
  | _ => Agreement
  end.

(** [bot.start] for the sender [id]. *)
Definition bot_start (reachable : bool) (now : Z) (id : string)
    : World → Screen * World :=
  λ w,
  match try_catch
          (cached <- getFromCache ("user_" +:+ id) ;;
           user <- match cached with
                   | Some v => ret (BValue v)
                   | None => get_api_user reachable now id
                   end ;;
           ret (choose_screen user))
          (λ error, ret Agreement) w with
  | (Returned screen, w') => (screen, w')
  | (Thrown _, w') => (Agreement, w')
  end.

(** What [bot.action('check_github_connection')] answers: connected, with
    [user.githubUsername], not connected yet, or an error of the check. *)
Inductive ConnectionCheck :=
| Connected (username : option string)
| NotConnected
| CheckFailed.

Definition check_github_connection (id : string) : World → ConnectionCheck * World :=
  λ w,
  match User_findOne id w with
  | (Returned (Some user), w') =>
      match present (githubAccessToken (data user)) with
      | Some _ => (Connected (githubUsername (data user)), w')
      | None => (NotConnected, w')
      end
  | (Returned None, w') => (NotConnected, w')
  | (Thrown _, w') => (CheckFailed, w')
  end.

(** The chat identity an operation acts for, when it carries one. *)
Definition op_identity (o : Op) : option string :=
  match o with
  | OpAgree _ id | OpGetUser _ id | OpListRepositories _ _ id
  | OpCreateRepository _ _ id => Some id
  | OpBeginAuthorization _ _ q => present q
  | OpCompleteAuthorization _ _ _ state => present state
  | EnvFileLost | EnvFileDamaged | EnvWritable _ => None
  end.

(** An operation other than a loss or a damage of the snapshot file. *)
Definition keeps_file (o : Op) : bool :=
  match o with
  | EnvFileLost | EnvFileDamaged => false
  | _ => true
  end.

(** The chat identity has agreed to the terms in neither store: its record,
    if any, is not agreed, and the snapshot holds a user document of it that
    is not agreed. *)
Definition unagreed_in_both (id : string) (w : World) : Prop :=
  (∀ d, db w !! id = Some d → isAgreed d = false) ∧
  ∃ u, cache_of (file w) !! ("user_" +:+ id) = Some (JUser u) ∧
       isAgreed (data u) = false.

(** What a later state of a record may not undo: the agreement, the
    linkage, the possession of a token and the creation date. *)
Definition never_regresses (d d' : UserData) : Prop :=
  (isAgreed d = true → isAgreed d' = true) ∧
  (isConnected d = true → isConnected d' = true) ∧
  (has_token d → has_token d') ∧
  createdAt d' = createdAt d.

(** ** Sample environments

    An outside in which GitHub answers as the account [octocat] with one
    repository, and one in which every request fails. *)

Definition hello_world : GhRepo :=
  mkGhRepo "Hello-World" "octocat/Hello-World"
    "https://github.com/octocat/Hello-World" false.

Definition octocat : Upstream :=
  mkUpstream
    (λ _, Returned (Some "gho_16C7e42F292c"))
    (λ _, Returned (mkProfile 583231 "octocat"))
    (λ _, Returned [hello_world])
    (λ _ repo_name _ isPrivate,
       Returned (mkGhRepo repo_name ("octocat/" +:+ repo_name)
                   ("https://github.com/octocat/" +:+ repo_name) isPrivate))
    (λ _, Returned tt).

Definition offline : Upstream :=
  let down := AxiosError "connect ECONNREFUSED" None in
  mkUpstream (λ _, Thrown down) (λ _, Thrown down) (λ _, Thrown down)
    (λ _ _ _ _, Thrown down) (λ _, Thrown down).

(** Worlds reached from a fresh deployment: the chat identity 42 agreed to
    the terms and the snapshot file then became read-only; 42 linked its
    account (before any agreement); 42 then listed its repositories at the
    instant 0; or the file became read-only after the linkage. *)
Definition agreed_then_readonly : World :=
  run [OpAgree 1 "42"; EnvWritable false] initial.

Definition linked : World :=
  run [OpCompleteAuthorization octocat 0 (Some "c0de") (Some "42")] initial.

Definition linked_listed : World :=
  run [OpListRepositories octocat 0 "42"] linked.

Definition linked_readonly : World :=
  run [EnvWritable false] linked.

(** * Proofs *)

#[local] Arguments readCache : simpl never.
#[local] Arguments writeCache : simpl never.
#[local] Arguments getFromCache : simpl never.

(** Exposes the control flow of a handler: the outer [try]/[catch], the
    sequencing, and the query of the durable store. *)
Ltac unfold_handler :=
  unfold run_handler, try_catch, bind, User_findOne.

(** ** Strings and keys *)

Lemma present_Some s t : present s = Some t ↔ s = Some t ∧ t ≠ "".
Proof.
  destruct s as [s|]; simpl; [|by split; [|intros []]].
  destruct (String.eqb_spec s "") as [->|Hs]; split; try done.
  - by intros [[= <-] ?].
  - by intros [= <-].
  - by intros [[= <-] ?].
Qed.

Lemma present_None s : present s = None ↔ s = None ∨ s = Some "".
Proof.
  destruct s as [s|]; simpl; [|by split; [left|]].
  destruct (String.eqb_spec s "") as [->|Hs]; split; try done.
  - by right.
  - by intros [|[= ->]].
Qed.

Lemma present_nonempty s : s ≠ "" → present (Some s) = Some s.
Proof. intros. by apply present_Some. Qed.

Lemma has_token_present d : has_token d ↔ ∃ t, present (githubAccessToken d) = Some t.
Proof.
  unfold has_token. split; intros [t H]; exists t.
  - by apply present_Some.
  - by apply present_Some in H as [-> ?].
Qed.

Lemma user_key_inj a b : "user_" +:+ a = "user_" +:+ b → a = b.
Proof. cbv [String.append]. congruence. Qed.

Lemma repos_key_inj a b : "repos_" +:+ a = "repos_" +:+ b → a = b.
Proof. cbv [String.append]. congruence. Qed.

Lemma user_key_not_stamp a : "user_" +:+ a ≠ "lastUpdated".
Proof. discriminate. Qed.

Lemma repos_key_not_stamp a : "repos_" +:+ a ≠ "lastUpdated".
Proof. discriminate. Qed.

Lemma oauth_key_not_stamp a : "oauth_" +:+ a ≠ "lastUpdated".
Proof. discriminate. Qed.

Lemma user_key_not_repos a b : "user_" +:+ a ≠ "repos_" +:+ b.
Proof. discriminate. Qed.

Lemma user_key_not_oauth a b : "user_" +:+ a ≠ "oauth_" +:+ b.
Proof. discriminate. Qed.

Lemma repos_key_not_oauth a b : "repos_" +:+ a ≠ "oauth_" +:+ b.
Proof. discriminate. Qed.

Lemma cache_key_not_stamp k : cache_key k → k ≠ "lastUpdated".
Proof. intros [id [-> | [-> | ->]]]; discriminate. Qed.

Create HintDb keys.
#[local] Hint Resolve user_key_not_stamp repos_key_not_stamp oauth_key_not_stamp
  user_key_not_repos user_key_not_oauth repos_key_not_oauth : keys.

(** ** The snapshot store *)

Lemma readCache_run w : readCache w = (Returned (cache_of (file w)), w).
Proof.
  destruct w as [d [| |c] wr l]; reflexivity.
Qed.

Lemma getFromCache_run key w :
  getFromCache key w = (Returned (cache_of (file w) !! key), w).
Proof. unfold getFromCache, bind. by rewrite readCache_run. Qed.

Lemma writeCache_run now key value w :
  writeCache now key value w =
  (Returned tt,
   if writable w then set_file (written now key value (file w)) w else w).
Proof.
  unfold writeCache, try_catch, bind, fs_writeFileSync.
  rewrite readCache_run. by destruct (writable w).
Qed.

Lemma written_lookup now key value f :
  key ≠ "lastUpdated" → cache_of (written now key value f) !! key = Some value.
Proof.
  intros. simpl. rewrite lookup_insert_ne by done. apply lookup_insert_eq.
Qed.

Lemma written_lookup_stamp now key value f :
  cache_of (written now key value f) !! "lastUpdated" = Some (JDate now).
Proof. simpl. apply lookup_insert_eq. Qed.

Lemma written_lookup_other now key value f k :
  k ≠ key → k ≠ "lastUpdated" →
  cache_of (written now key value f) !! k = cache_of f !! k.
Proof. intros. simpl. by rewrite !lookup_insert_ne. Qed.

Lemma writeCache_wrote now key value w :
  writeCache now key value w = (Returned tt, wrote now key value w).
Proof. apply writeCache_run. Qed.

Lemma wrote_db now key value w : db (wrote now key value w) = db w.
Proof. unfold wrote. by destruct (writable w). Qed.

Lemma wrote_net now key value w : net (wrote now key value w) = net w.
Proof. unfold wrote. by destruct (writable w). Qed.

Lemma wrote_writable now key value w : writable (wrote now key value w) = writable w.
Proof. unfold wrote. by destruct (writable w) eqn:E. Qed.

Lemma wrote_file now key value w :
  writable w = true → file (wrote now key value w) = written now key value (file w).
Proof. unfold wrote. by intros ->. Qed.

Lemma wrote_unwritable now key value w :
  writable w = false → wrote now key value w = w.
Proof. unfold wrote. by intros ->. Qed.

(** A write never touches the entries of the other keys, whether it goes
    through or not. *)
Lemma wrote_lookup_other now key value w k :
  k ≠ key → k ≠ "lastUpdated" →
  cache_of (file (wrote now key value w)) !! k = cache_of (file w) !! k.
Proof.
  intros. unfold wrote. destruct (writable w); [|done].
  by apply written_lookup_other.
Qed.

Lemma append_assoc (s1 s2 s3 : string) : (s1 +:+ s2) +:+ s3 = s1 +:+ (s2 +:+ s3).
Proof.
  induction s1 as [|a s1 IH]; [done|].
  change (String a ((s1 +:+ s2) +:+ s3) = String a (s1 +:+ (s2 +:+ s3))).
  by rewrite IH.
Qed.

(** ** Claims about the snapshot store *)

(** C10: for every state of the snapshot file (absent, unreadable or
    unparsable, or holding an object), every key the handlers build and
    every value, [writeCache] returns normally, whether the file can be
    written or not: a failed write is swallowed. It touches neither the
    durable store nor the network. When the file can be written, the key
    then reads as the value, [lastUpdated] reads as the instant of the
    write, and every other key reads as before. *)
Theorem writeCache_sets_key_keeps_others (now : Z) (key : string)
    (value : CacheValue) (w : World) :
  cache_key key →
  ∃ w', writeCache now key value w = (Returned tt, w') ∧
        db w' = db w ∧ net w' = net w ∧
        (writable w = true →
           getFromCache key w' = (Returned (Some value), w') ∧
           getFromCache "lastUpdated" w' = (Returned (Some (JDate now)), w') ∧
           ∀ k, k ≠ key → k ≠ "lastUpdated" →
                fst (getFromCache k w') = fst (getFromCache k w)).
Proof.
  intros Hkey%cache_key_not_stamp. exists (wrote now key value w).
  split; [apply writeCache_wrote|].
  split; [apply wrote_db|]. split; [apply wrote_net|].
  intros Hw. rewrite !getFromCache_run, (wrote_file _ _ _ _ Hw).
  rewrite written_lookup by done. rewrite written_lookup_stamp.
  repeat split. intros k Hk Hs. rewrite !getFromCache_run. cbn [fst].
  by rewrite wrote_lookup_other.
Qed.

Lemma writeCache_sets_key_keeps_others_witness :
  ∃ w', writeCache 1000 "user_42" (JOauth "42" 0) linked = (Returned tt, w') ∧
        db w' = db linked ∧ net w' = net linked ∧
        (writable linked = true →
           getFromCache "user_42" w' = (Returned (Some (JOauth "42" 0)), w') ∧
           getFromCache "lastUpdated" w' = (Returned (Some (JDate 1000)), w') ∧
           ∀ k, k ≠ "user_42" → k ≠ "lastUpdated" →
                fst (getFromCache k w') = fst (getFromCache k linked)).
Proof.
  apply (writeCache_sets_key_keeps_others 1000 "user_42" (JOauth "42" 0) linked).
  exists "42". left. reflexivity.
Defined.

(** The stamp is assigned after the key: this is why [lastUpdated] is not a
    key of the cache. Written under that name, a value does not read back;
    the instant of the write does. *)
Lemma writeCache_lastUpdated_key_is_stamped :
  let w' := snd (writeCache 1000 "lastUpdated" (JOauth "42" 0) initial) in
  writable initial = true ∧
  fst (getFromCache "lastUpdated" w') = Returned (Some (JDate 1000)) ∧
  fst (getFromCache "lastUpdated" w') ≠ Returned (Some (JOauth "42" 0)).
Proof.
  cbv zeta. rewrite writeCache_wrote, getFromCache_run. cbn [fst snd].
  rewrite wrote_file by done.
  rewrite written_lookup_stamp. by repeat split.
Qed.

(** C8: when the snapshot file is absent or cannot be parsed, [readCache]
    returns the empty object; for every key the handlers build,
    [getFromCache] returns nothing, without throwing; and getUser answers
    with the record of the durable store (the empty object when there is
    none). *)
Theorem snapshot_read_failure_is_a_miss (now : Z) (id : string) (w : World) :
  file w = FileAbsent ∨ file w = FileCorrupt →
  readCache w = (Returned ∅, w) ∧
  (∀ key, cache_key key → getFromCache key w = (Returned None, w)) ∧
  fst (api_user_get now id w) =
    RJson 200 (match db w !! id with
               | Some d => BValue (JUser (mkUser id d))
               | None => BEmptyObject
               end).
Proof.
  intros Hfile.
  assert (cache_of (file w) = ∅) as Hc by (by destruct Hfile as [-> | ->]).
  split; [by rewrite readCache_run, Hc|].
  split; [intros key _; by rewrite getFromCache_run, Hc, lookup_empty|].
  unfold api_user_get. unfold_handler.
  rewrite getFromCache_run, Hc, lookup_empty. unfold User_findOne.
  destruct (db w !! id) as [d|]; [|done].
  cbn. by rewrite writeCache_wrote.
Qed.

Lemma snapshot_read_failure_is_a_miss_witness :
  let w := mkWorld {[ "42" := schema_defaults 0 ]} FileCorrupt true [] in
  readCache w = (Returned ∅, w) ∧
  (∀ key, cache_key key → getFromCache key w = (Returned None, w)) ∧
  fst (api_user_get 5 "42" w) =
    RJson 200 (match db w !! "42" with
               | Some d => BValue (JUser (mkUser "42" d))
               | None => BEmptyObject
               end).
Proof.
  apply (snapshot_read_failure_is_a_miss 5 "42"
           (mkWorld {[ "42" := schema_defaults 0 ]} FileCorrupt true [])).
  right. reflexivity.
Defined.

(** ** Claims about requests that are refused *)

Lemma repos_no_record up now id w :
  db w !! id = None →
  api_github_repos up now id w = (RJson 401 (BError "Not authenticated"), w).
Proof.
  intros H. unfold api_github_repos. unfold_handler.
  by rewrite H.
Qed.

Lemma repos_no_token up now id w d :
  db w !! id = Some d → present (githubAccessToken d) = None →
  api_github_repos up now id w = (RJson 401 (BError "Not authenticated"), w).
Proof.
  intros H Htok. unfold api_github_repos. unfold_handler.
  rewrite H. cbn. by rewrite Htok.
Qed.

(** C6: for a chat identity with no user record, or with a record whose
    token is missing or empty, listRepositories answers 401 "Not
    authenticated" and leaves the whole world as it was: nothing is sent to
    the hosting provider and neither store changes. *)
Theorem repos_unauthenticated (up : Upstream) (now : Z) (id : string) (w : World) :
  (db w !! id = None ∨
   ∃ d, db w !! id = Some d ∧
        (githubAccessToken d = None ∨ githubAccessToken d = Some "")) →
  api_github_repos up now id w = (RJson 401 (BError "Not authenticated"), w).
Proof.
  intros [H | (d & Hd & Htok)].
  - by apply repos_no_record.
  - apply (repos_no_token up now id w d Hd). by apply present_None.
Qed.

Lemma repos_unauthenticated_witness :
  api_github_repos octocat 5 "42" initial
  = (RJson 401 (BError "Not authenticated"), initial).
Proof.
  apply (repos_unauthenticated octocat 5 "42" initial).
  left. reflexivity.
Defined.

Lemma callback_missing_parameter_run up now query_code query_state w :
  present query_code = None ∨ present query_state = None →
  auth_github_callback up now query_code query_state w
  = (RRedirect "/error?error=Missing parameters", w).
Proof.
  unfold auth_github_callback, run_handler, try_catch.
  intros [-> | ->]; [done|]. by destruct (present query_code).
Qed.

(** C7: when the callback carries no code or no chat identity (a missing
    or empty parameter), completeAuthorization redirects to the error page
    "Missing parameters" and leaves the whole world as it was: no request is
    sent and neither store changes. *)
Theorem callback_missing_parameter (up : Upstream) (now : Z)
    (query_code query_state : option string) (w : World) :
  (query_code = None ∨ query_code = Some "" ∨
   query_state = None ∨ query_state = Some "") →
  auth_github_callback up now query_code query_state w
  = (RRedirect "/error?error=Missing parameters", w).
Proof.
  intros H. apply callback_missing_parameter_run.
  rewrite !present_None. tauto.
Qed.

Lemma callback_missing_parameter_witness :
  auth_github_callback octocat 5 (Some "") (Some "42") initial
  = (RRedirect "/error?error=Missing parameters", initial).
Proof.
  apply (callback_missing_parameter octocat 5 (Some "") (Some "42") initial).
  right. left. reflexivity.
Defined.

(** ** Claims about beginAuthorization *)

Lemma githubAuthUrl_state cfg id :
  githubAuthUrl cfg id = authorize_prefix cfg +:+ "&state=" +:+ id.
Proof.
  unfold githubAuthUrl, authorize_prefix.
  rewrite !append_assoc. do 4 f_equal.
Qed.

Lemma auth_github_run cfg now id w :
  id ≠ "" →
  auth_github cfg now (Some id) w
  = (RRedirect (githubAuthUrl cfg id), wrote now ("oauth_" +:+ id) (JOauth id now) w).
Proof.
  intros Hid. unfold auth_github, run_handler, bind.
  rewrite present_nonempty by done. by rewrite writeCache_wrote.
Qed.

(** C9: for a chat identity [id], two calls of beginAuthorization both
    redirect to the same authorization URL, which ends in [&state=id];
    neither call changes the durable store or any [user_] entry of the
    snapshot store. *)
Theorem begin_authorization_twice (cfg : Config) (t1 t2 : Z) (id : string) (w : World) :
  id ≠ "" →
  ∃ w1 w2,
    auth_github cfg t1 (Some id) w
      = (RRedirect (authorize_prefix cfg +:+ "&state=" +:+ id), w1) ∧
    auth_github cfg t2 (Some id) w1
      = (RRedirect (authorize_prefix cfg +:+ "&state=" +:+ id), w2) ∧
    db w1 = db w ∧ db w2 = db w ∧
    ∀ x, fst (getFromCache ("user_" +:+ x) w1) = fst (getFromCache ("user_" +:+ x) w) ∧
         fst (getFromCache ("user_" +:+ x) w2) = fst (getFromCache ("user_" +:+ x) w).
Proof.
  intros Hid. eexists _, _.
  rewrite <- githubAuthUrl_state, !auth_github_run by done.
  split; [done|]. split; [done|]. rewrite !wrote_db.
  split; [done|]. split; [done|]. intros x.
  rewrite !getFromCache_run. cbn [fst].
  rewrite !wrote_lookup_other by auto with keys. done.
Qed.

Lemma begin_authorization_twice_witness :
  let cfg := mkConfig "Iv1.abc" "https://bot.example" in
  ∃ w1 w2,
    auth_github cfg 1 (Some "42") initial
      = (RRedirect (authorize_prefix cfg +:+ "&state=" +:+ "42"), w1) ∧
    auth_github cfg 2 (Some "42") w1
      = (RRedirect (authorize_prefix cfg +:+ "&state=" +:+ "42"), w2) ∧
    db w1 = db initial ∧ db w2 = db initial ∧
    ∀ x, fst (getFromCache ("user_" +:+ x) w1)
           = fst (getFromCache ("user_" +:+ x) initial) ∧
         fst (getFromCache ("user_" +:+ x) w2)
           = fst (getFromCache ("user_" +:+ x) initial).
Proof.
  apply (begin_authorization_twice (mkConfig "Iv1.abc" "https://bot.example")
           1 2 "42" initial).
  discriminate.
Defined.

(** ** Claims about createRepository *)

Lemma bot_newrepo_keeps_stores up args id w :
  file (bot_newrepo up args id w) = file w ∧
  db (bot_newrepo up args id w) = db w.
Proof.
  unfold bot_newrepo, try_catch, bind, User_findOne, request, ctx_reply.
  destruct (newrepo_args args) as [[[repo_name description] isPrivate]|]; [|done].
  cbn. destruct (_ ≫= _) as [token|]; [|done].
  cbn. by destruct (post_user_repos up token repo_name description isPrivate).
Qed.

Lemma repos_hit up now id w d token payload cachedAt :
  db w !! id = Some d → githubAccessToken d = Some token → token ≠ "" →
  cache_of (file w) !! ("repos_" +:+ id) = Some (JRepos payload cachedAt) →
  now - cachedAt < 5 * 60 * 1000 →
  api_github_repos up now id w = (RJson 200 (BRepos payload), w).
Proof.
  intros Hd Htok Hne Hc Hfresh.
  unfold api_github_repos. unfold_handler.
  rewrite Hd. cbn. rewrite Htok, present_nonempty by done.
  rewrite getFromCache_run, Hc. cbn.
  by rewrite (proj2 (Z.ltb_lt _ _) Hfresh).
Qed.

(** C5: createRepository never touches the snapshot file nor the durable
    store. So, for a linked chat identity whose [repos_] entry is less than
    5 minutes old, after a successful creation a listRepositories call
    in that window still answers with the cached payload, sends nothing to
    the provider and changes nothing; the payload having been fetched
    without a repository of the new name, the answer does not contain it. *)
Theorem create_repository_leaves_cache_stale
    (up up' : Upstream) (args : list string) (id : string) (now : Z) (w : World)
    (d : UserData) (token repo_name description : string) (isPrivate : bool)
    (repo : GhRepo) (payload : list GhRepo) (cachedAt : Z) :
  db w !! id = Some d → githubAccessToken d = Some token → token ≠ "" →
  newrepo_args args = Some (repo_name, description, isPrivate) →
  post_user_repos up token repo_name description isPrivate = Returned repo →
  getFromCache ("repos_" +:+ id) w = (Returned (Some (JRepos payload cachedAt)), w) →
  now - cachedAt < 5 * 60 * 1000 →
  (∀ r, r ∈ payload → name r ≠ repo_name) →
  (∀ up0 args0 id0 w0,
     file (bot_newrepo up0 args0 id0 w0) = file w0 ∧
     db (bot_newrepo up0 args0 id0 w0) = db w0) ∧
  let w1 := bot_newrepo up args id w in
  net w1 = net w ++ [TelegramReply id ReplyCreating;
                     PostUserRepos token repo_name description isPrivate;
                     TelegramReply id (ReplyCreated repo)] ∧
  file w1 = file w ∧ db w1 = db w ∧
  ∃ l, api_github_repos up' now id w1 = (RJson 200 (BRepos l), w1) ∧
       l = payload ∧ ∀ r, r ∈ l → name r ≠ repo_name.
Proof.
  intros Hd Htok Hne Hargs Hpost Hc Hfresh Hold.
  split; [intros; apply bot_newrepo_keeps_stores|].
  rewrite getFromCache_run in Hc. injection Hc as Hc.
  destruct (bot_newrepo_keeps_stores up args id w) as [Hfile Hdb].
  cbv zeta. split; [|split; [done|split; [done|]]].
  - unfold bot_newrepo, try_catch, bind, User_findOne, request, ctx_reply.
    rewrite Hargs, Hd. cbn. rewrite Htok, present_nonempty by done.
    cbn. rewrite Hpost. cbn. by rewrite <- !app_assoc.
  - exists payload. split; [|done].
    apply (repos_hit _ _ _ _ d token payload cachedAt); try done.
    + by rewrite Hdb.
    + by rewrite Hfile.
Qed.

Lemma create_repository_leaves_cache_stale_witness :
  let foo := mkGhRepo "foo" "octocat/foo" "https://github.com/octocat/foo" false in
  (∀ up0 args0 id0 w0,
     file (bot_newrepo up0 args0 id0 w0) = file w0 ∧
     db (bot_newrepo up0 args0 id0 w0) = db w0) ∧
  let w1 := bot_newrepo octocat ["foo"] "42" linked_listed in
  net w1 = net linked_listed
           ++ [TelegramReply "42" ReplyCreating;
               PostUserRepos "gho_16C7e42F292c" "foo" "" false;
               TelegramReply "42" (ReplyCreated foo)] ∧
  file w1 = file linked_listed ∧ db w1 = db linked_listed ∧
  ∃ l, api_github_repos offline 2000 "42" w1 = (RJson 200 (BRepos l), w1) ∧
       l = [hello_world] ∧ ∀ r, r ∈ l → name r ≠ "foo".
Proof.
  apply (create_repository_leaves_cache_stale octocat offline ["foo"] "42" 2000
           linked_listed
           (mkUserData (Some 583231) (Some "gho_16C7e42F292c") (Some "octocat")
              false true 0 0 [to_ref hello_world])
           "gho_16C7e42F292c" "foo" "" false
           (mkGhRepo "foo" "octocat/foo" "https://github.com/octocat/foo" false)
           [hello_world] 0).
  - vm_compute. reflexivity.
  - reflexivity.
  - discriminate.
  - reflexivity.
  - reflexivity.
  - vm_compute. reflexivity.
  - reflexivity.
  - intros r Hr. apply list_elem_of_singleton in Hr. subst r. discriminate.
Defined.

(** ** Claims about completeAuthorization *)

Lemma callback_run up now code id token profile w :
  code ≠ "" → id ≠ "" →
  post_access_token up code = Returned (Some token) → token ≠ "" →
  get_github_user up token = Returned profile →
  let d := link_data now (gh_id profile) token (gh_login profile)
             (default (schema_defaults now) (db w !! id)) in
  auth_github_callback up now (Some code) (Some id) w
  = (RRedirect ("/success?telegramId=" +:+ id),
     log_call (TelegramSendMessage id)
       (wrote now ("user_" +:+ id) (JUser (mkUser id d))
          (set_db (<[id := d]> (db w))
             (log_call (GetGithubUser token) (log_call (PostAccessToken code) w))))).
Proof.
  intros Hcode Hid Hpost Htok Hget d.
  unfold auth_github_callback, run_handler, try_catch, bind, request.
  rewrite !present_nonempty by done. rewrite Hpost.
  rewrite present_nonempty by done. rewrite Hget.
  unfold User_findOneAndUpdate. cbn [db log_call].
  rewrite writeCache_wrote. by destruct (telegram_sendMessage up id).
Qed.

Lemma api_user_get_hit now id w v :
  cache_of (file w) !! ("user_" +:+ id) = Some v →
  api_user_get now id w = (RJson 200 (BValue v), w).
Proof.
  intros Hc. unfold api_user_get. unfold_handler.
  by rewrite getFromCache_run, Hc.
Qed.

(** C1 (as amended): when completeAuthorization succeeds for a chat
    identity (the provider returned a token and a profile) and the snapshot
    file can be written, the durable store and the [user_] entry of the
    snapshot store hold the same record, which is linked and carries the
    token, and a following getUser answers with that record. *)
Theorem callback_then_getUser_linked (up : Upstream) (now now' : Z)
    (code id token : string) (profile : Profile) (w : World) :
  code ≠ "" → id ≠ "" →
  post_access_token up code = Returned (Some token) → token ≠ "" →
  get_github_user up token = Returned profile →
  writable w = true →
  ∃ w1 u,
    auth_github_callback up now (Some code) (Some id) w
      = (RRedirect ("/success?telegramId=" +:+ id), w1) ∧
    telegramId u = id ∧ isConnected (data u) = true ∧
    githubAccessToken (data u) = Some token ∧ has_token (data u) ∧
    User_findOne id w1 = (Returned (Some u), w1) ∧
    getFromCache ("user_" +:+ id) w1 = (Returned (Some (JUser u)), w1) ∧
    api_user_get now' id w1 = (RJson 200 (BValue (JUser u)), w1).
Proof.
  intros Hcode Hid Hpost Htok Hget Hw.
  set (d := link_data now (gh_id profile) token (gh_login profile)
              (default (schema_defaults now) (db w !! id))).
  eexists _, (mkUser id d).
  split; [by apply (callback_run up now code id token profile w)|].
  fold d.
  split; [done|]. split; [done|]. split; [done|].
  split; [by exists token|].
  assert (cache_of (file (log_call (TelegramSendMessage id)
            (wrote now ("user_" +:+ id) (JUser (mkUser id d))
               (set_db (<[id := d]> (db w))
                  (log_call (GetGithubUser token) (log_call (PostAccessToken code) w))))))
          !! ("user_" +:+ id) = Some (JUser (mkUser id d))) as Hc.
  { cbn [file log_call]. rewrite wrote_file by done.
    apply written_lookup. auto with keys. }
  split; [|split].
  - unfold User_findOne. cbn [db log_call]. rewrite wrote_db. cbn [db set_db].
    by rewrite lookup_insert_eq.
  - by rewrite getFromCache_run, Hc.
  - by apply api_user_get_hit.
Qed.

Lemma callback_then_getUser_linked_witness :
  ∃ w1 u,
    auth_github_callback octocat 0 (Some "c0de") (Some "42") initial
      = (RRedirect ("/success?telegramId=" +:+ "42"), w1) ∧
    telegramId u = "42" ∧ isConnected (data u) = true ∧
    githubAccessToken (data u) = Some "gho_16C7e42F292c" ∧ has_token (data u) ∧
    User_findOne "42" w1 = (Returned (Some u), w1) ∧
    getFromCache ("user_" +:+ "42") w1 = (Returned (Some (JUser u)), w1) ∧
    api_user_get 10 "42" w1 = (RJson 200 (BValue (JUser u)), w1).
Proof.
  apply (callback_then_getUser_linked octocat 0 10 "c0de" "42" "gho_16C7e42F292c"
           (mkProfile 583231 "octocat") initial).
  - discriminate.
  - discriminate.
  - reflexivity.
  - discriminate.
  - reflexivity.
  - reflexivity.
Defined.

(** C1, as stated, fails when the write of the snapshot file fails: the
    callback succeeds and the durable store holds the linked record, but
    the [user_] entry keeps the record written at the agreement, and getUser
    answers with that record, which is not linked and has no token. *)
Lemma callback_unwritable_snapshot_stays_stale :
  let w1 := snd (auth_github_callback octocat 5 (Some "c0de") (Some "42")
                   agreed_then_readonly) in
  fst (auth_github_callback octocat 5 (Some "c0de") (Some "42") agreed_then_readonly)
    = RRedirect "/success?telegramId=42" ∧
  isConnected <$> db w1 !! "42" = Some true ∧
  api_user_get 6 "42" w1 = (RJson 200 (BValue (JUser (new_agreed_User 1 "42"))), w1) ∧
  isConnected (data (new_agreed_User 1 "42")) = false ∧
  githubAccessToken (data (new_agreed_User 1 "42")) = None.
Proof. vm_compute. done. Qed.

(** ** Claims about the terms agreement *)

Lemma api_user_agree_hit now id w v :
  cache_of (file w) !! ("user_" +:+ id) = Some v →
  api_user_agree now id w = (RJson 500 (BFailure "user.save is not a function"), w).
Proof.
  intros Hc. unfold api_user_agree. unfold_handler.
  rewrite getFromCache_run, Hc. cbn. by destruct v.
Qed.

(** Without a snapshot entry the operation is an upsert: it creates the
    record... *)
Lemma api_user_agree_creates now id w :
  id ≠ "" → cache_of (file w) !! ("user_" +:+ id) = None → db w !! id = None →
  api_user_agree now id w
  = (RJson 200 (BSuccess "Agreement accepted"),
     wrote now ("user_" +:+ id) (JUser (new_agreed_User now id))
       (set_db (<[id := data (new_agreed_User now id)]> (db w)) w)).
Proof.
  intros Hid Hc Hd. unfold api_user_agree. unfold_handler.
  rewrite getFromCache_run, Hc. cbn. rewrite Hd. cbn. unfold doc_save. cbn.
  rewrite (proj2 (String.eqb_neq _ _) Hid). unfold ret. cbn.
  by rewrite writeCache_wrote.
Qed.

(** ... or updates the one the durable store holds. *)
Lemma api_user_agree_updates now id w d :
  id ≠ "" → cache_of (file w) !! ("user_" +:+ id) = None → db w !! id = Some d →
  api_user_agree now id w
  = (RJson 200 (BSuccess "Agreement accepted"),
     wrote now ("user_" +:+ id) (JUser (mkUser id (agree_data now d)))
       (set_db (<[id := agree_data now d]> (db w)) w)).
Proof.
  intros Hid Hc Hd. unfold api_user_agree. unfold_handler.
  rewrite getFromCache_run, Hc. cbn. rewrite Hd. cbn. unfold doc_save. cbn.
  rewrite (proj2 (String.eqb_neq _ _) Hid). unfold ret. cbn.
  by rewrite writeCache_wrote.
Qed.

(** C3, where the code departs from it: when the snapshot store holds a
    [user_] entry for the chat identity, the terms agreement reads the plain
    object of the entry, calls [save] on it and fails with status 500; the
    record of the durable store is not updated and nothing is written. *)
Theorem agree_fails_when_snapshot_entry_present (now : Z) (id : string)
    (w : World) (d : UserData) (v : CacheValue) :
  db w !! id = Some d →
  getFromCache ("user_" +:+ id) w = (Returned (Some v), w) →
  api_user_agree now id w = (RJson 500 (BFailure "user.save is not a function"), w).
Proof.
  intros _ Hc. rewrite getFromCache_run in Hc. injection Hc as Hc.
  by apply (api_user_agree_hit now id w v).
Qed.

Lemma agree_fails_when_snapshot_entry_present_witness :
  isAgreed <$> db linked !! "42" = Some false ∧
  api_user_agree 7 "42" linked
  = (RJson 500 (BFailure "user.save is not a function"), linked).
Proof.
  split; [reflexivity|].
  apply (agree_fails_when_snapshot_entry_present 7 "42" linked
           (link_data 0 583231 "gho_16C7e42F292c" "octocat" (schema_defaults 0))
           (JUser (mkUser "42"
              (link_data 0 583231 "gho_16C7e42F292c" "octocat" (schema_defaults 0))))).
  - vm_compute. reflexivity.
  - vm_compute. reflexivity.
Defined.

(** ** Claims about the repository-list cache *)

(** What listRepositories does when the [repos_] entry is missing, of
    another shape, or at least 5 minutes old. *)
Lemma repos_miss up now id w d token :
  db w !! id = Some d → githubAccessToken d = Some token → token ≠ "" →
  fresh_payload now (cache_of (file w) !! ("repos_" +:+ id)) = None →
  api_github_repos up now id w =
  match get_user_repos up token with
  | Thrown e => (RJson 500 (BError (message e)), log_call (GetUserRepos token) w)
  | Returned repos =>
      let user := set_repositories (map to_ref repos) (mkUser id d) in
      if String.eqb id "" then
        (RJson 500 (BError
           "User validation failed: telegramId: Path `telegramId` is required."),
         log_call (GetUserRepos token) w)
      else
        (RJson 200 (BRepos repos),
         wrote now ("user_" +:+ id) (JUser user)
           (wrote now ("repos_" +:+ id) (JRepos repos now)
              (set_db (<[id := data user]> (db w)) (log_call (GetUserRepos token) w))))
  end.
Proof.
  intros Hd Htok Hne Hstale.
  unfold api_github_repos. unfold_handler.
  rewrite Hd. cbn. rewrite Htok, present_nonempty by done.
  rewrite getFromCache_run, Hstale. unfold request.
  destruct (get_user_repos up token) as [repos|e]; [|done].
  unfold doc_save. cbn. destruct (String.eqb id ""); [done|].
  rewrite !writeCache_wrote. unfold ret. cbn. by rewrite ?Htok.
Qed.

(** A call sends at most one request, and only to the provider. *)
Lemma repos_net up now id w :
  ∃ calls, net (snd (api_github_repos up now id w)) = net w ++ calls ∧
           (length (hosting_calls calls) ≤ 1)%nat.
Proof.
  destruct (db w !! id) as [d|] eqn:Hd.
  2:{ exists []. rewrite repos_no_record by done.
      split; [by rewrite app_nil_r | cbn; lia]. }
  destruct (present (githubAccessToken d)) as [token|] eqn:Htok.
  2:{ exists []. rewrite (repos_no_token up now id w d) by done.
      split; [by rewrite app_nil_r | cbn; lia]. }
  apply present_Some in Htok as [Htok Hne].
  destruct (fresh_payload now (cache_of (file w) !! ("repos_" +:+ id)))
    as [payload|] eqn:Hfresh.
  - exists []. unfold fresh_payload in Hfresh.
    destruct (cache_of (file w) !! ("repos_" +:+ id)) as [[| p c | |]|] eqn:Hc;
      try done.
    destruct (Z.ltb_spec (now - c) (5 * 60 * 1000)); [|done].
    injection Hfresh as ->.
    rewrite (repos_hit up now id w d token payload c) by done.
    split; [by rewrite app_nil_r | cbn; lia].
  - exists [GetUserRepos token].
    rewrite (repos_miss up now id w d token) by done.
    split; [|cbn; lia].
    destruct (get_user_repos up token); [|done].
    cbn zeta. destruct (String.eqb id ""); [done|].
    cbn [snd]. by rewrite !wrote_net.
Qed.

(** A call keeps the token of the record and the mode of the file. *)
Lemma repos_keeps_link up now id w d token :
  db w !! id = Some d → githubAccessToken d = Some token →
  writable (snd (api_github_repos up now id w)) = writable w ∧
  ∃ d', db (snd (api_github_repos up now id w)) !! id = Some d' ∧
        githubAccessToken d' = Some token.
Proof.
  intros Hd Htok.
  destruct (decide (token = "")) as [->|Hne].
  { rewrite (repos_no_token up now id w d) by (by rewrite ?Htok). eauto. }
  destruct (fresh_payload now (cache_of (file w) !! ("repos_" +:+ id)))
    as [payload|] eqn:Hfresh.
  - unfold fresh_payload in Hfresh.
    destruct (cache_of (file w) !! ("repos_" +:+ id)) as [[| p c | |]|] eqn:Hc;
      try done.
    destruct (Z.ltb_spec (now - c) (5 * 60 * 1000)); [|done].
    rewrite (repos_hit up now id w d token p c) by done. eauto.
  - rewrite (repos_miss up now id w d token) by done.
    destruct (get_user_repos up token); [|by eauto].
    cbn zeta. destruct (String.eqb id ""); [by eauto|].
    cbn [snd]. rewrite !wrote_writable, !wrote_db. split; [done|].
    eexists. cbn [db set_db]. by rewrite lookup_insert_eq.
Qed.

(** Once the window of the entry has elapsed, a call asks the provider
    again; when it succeeds and the file can be written, the entry holds
    the new payload and the instant of this call. *)
Lemma repos_refetch_after_window up now id w d token payload cachedAt r w' :
  db w !! id = Some d → githubAccessToken d = Some token → token ≠ "" →
  writable w = true →
  cache_of (file w) !! ("repos_" +:+ id) = Some (JRepos payload cachedAt) →
  5 * 60 * 1000 ≤ now - cachedAt →
  api_github_repos up now id w = (r, w') →
  net w' = net w ++ [GetUserRepos token] ∧
  ∀ p, r = RJson 200 (BRepos p) →
       getFromCache ("repos_" +:+ id) w' = (Returned (Some (JRepos p now)), w').
Proof.
  intros Hd Htok Hne Hw Hc Hold.
  rewrite (repos_miss up now id w d token); try done.
  2:{ rewrite Hc. cbn. by rewrite (proj2 (Z.ltb_ge _ _) Hold). }
  destruct (get_user_repos up token) as [repos|e].
  2:{ intros [= <- <-]. done. }
  cbn zeta. destruct (String.eqb id ""); [intros [= <- <-]; done|].
  intros [= <- <-]. rewrite !wrote_net. split; [done|].
  intros p [= <-]. rewrite getFromCache_run.
  rewrite wrote_lookup_other by auto with keys.
  rewrite wrote_file by done. by rewrite written_lookup by auto with keys.
Qed.

Lemma fresh_payload_Some now o p :
  fresh_payload now o = Some p ↔
  ∃ c, o = Some (JRepos p c) ∧ now - c < 5 * 60 * 1000.
Proof.
  unfold fresh_payload. split.
  - destruct o as [[| q c | |]|]; try done.
    destruct (Z.ltb_spec (now - c) (5 * 60 * 1000)); [|done].
    intros [= ->]. eauto.
  - intros (c & -> & Hc). by rewrite (proj2 (Z.ltb_lt _ _) Hc).
Qed.

(** A call never removes the [repos_] entry. *)
Lemma repos_keeps_entry up now id w p c :
  cache_of (file w) !! ("repos_" +:+ id) = Some (JRepos p c) →
  ∃ p' c', cache_of (file (snd (api_github_repos up now id w))) !! ("repos_" +:+ id)
           = Some (JRepos p' c').
Proof.
  intros Hc.
  destruct (db w !! id) as [d|] eqn:Hd.
  2:{ rewrite repos_no_record by done. eauto. }
  destruct (present (githubAccessToken d)) as [token|] eqn:Htok.
  2:{ rewrite (repos_no_token up now id w d) by done. eauto. }
  apply present_Some in Htok as [Htok Hne].
  destruct (fresh_payload now (cache_of (file w) !! ("repos_" +:+ id)))
    as [payload|] eqn:Hfresh.
  - apply fresh_payload_Some in Hfresh as (c0 & Hc0 & Hfresh).
    rewrite (repos_hit up now id w d token payload c0) by done. eauto.
  - rewrite (repos_miss up now id w d token) by done.
    destruct (get_user_repos up token) as [repos|e]; [|by eauto].
    cbn zeta. destruct (String.eqb id ""); [by eauto|]. cbn [snd].
    rewrite wrote_lookup_other by auto with keys.
    unfold wrote at 1. cbn [writable set_db log_call].
    destruct (writable w); [|by eauto].
    cbn [file set_file]. rewrite written_lookup by auto with keys. eauto.
Qed.

(** C4 (as amended): take a linked chat identity, a snapshot file that can
    be written, a listRepositories call at [t1] that succeeds, a second call
    at [t2], less than 5 minutes after [t1], and a third call at [t3].
    - The first two calls send at most one request to the provider.
    - When the first call fetched from the provider, the second call sends
      nothing, changes nothing and answers with the payload of the first.
    - After the two calls the snapshot store holds a [repos_] entry; when
      the third call comes 5 minutes or more after its [cachedAt], it sends
      a new request to the provider, and when it succeeds the entry holds
      its payload with [cachedAt] set to [t3]. *)
Theorem repos_cache_window (up1 up2 up3 : Upstream) (t1 t2 t3 : Z) (id : string)
    (w w1 w2 w3 : World) (d : UserData) (token : string) (p1 : list GhRepo)
    (r2 r3 : HttpResp) :
  db w !! id = Some d → githubAccessToken d = Some token → token ≠ "" →
  writable w = true →
  api_github_repos up1 t1 id w = (RJson 200 (BRepos p1), w1) →
  api_github_repos up2 t2 id w1 = (r2, w2) →
  api_github_repos up3 t3 id w2 = (r3, w3) →
  t2 - t1 < 5 * 60 * 1000 →
  (∃ calls, net w2 = net w ++ calls ∧ (length (hosting_calls calls) ≤ 1)%nat) ∧
  (net w1 ≠ net w → r2 = RJson 200 (BRepos p1) ∧ w2 = w1) ∧
  ∃ payload cachedAt,
    getFromCache ("repos_" +:+ id) w2
      = (Returned (Some (JRepos payload cachedAt)), w2) ∧
    (5 * 60 * 1000 ≤ t3 - cachedAt →
     net w3 = net w2 ++ [GetUserRepos token] ∧
     ∀ p3, r3 = RJson 200 (BRepos p3) →
           getFromCache ("repos_" +:+ id) w3 = (Returned (Some (JRepos p3 t3)), w3)).
Proof.
  intros Hd Htok Hne Hw H1 H2 H3 Hclose.
  (* the link and the file mode survive both calls *)
  destruct (repos_keeps_link up1 t1 id w d token Hd Htok) as (Hw1 & d1 & Hd1 & Htok1).
  rewrite H1 in Hw1, Hd1. cbn [snd] in Hw1, Hd1.
  destruct (repos_keeps_link up2 t2 id w1 d1 token Hd1 Htok1)
    as (Hw2 & d2 & Hd2 & Htok2).
  rewrite H2 in Hw2, Hd2. cbn [snd] in Hw2, Hd2.
  assert (
    (∃ calls, net w2 = net w ++ calls ∧ (length (hosting_calls calls) ≤ 1)%nat) ∧
    (net w1 ≠ net w → r2 = RJson 200 (BRepos p1) ∧ w2 = w1) ∧
    ∃ p c, cache_of (file w1) !! ("repos_" +:+ id) = Some (JRepos p c))
    as (Hone & Hsecond & p & c & Hentry1).
  { destruct (fresh_payload t1 (cache_of (file w) !! ("repos_" +:+ id)))
      as [p|] eqn:Hfresh.
    - (* the first call is served from the cache *)
      apply fresh_payload_Some in Hfresh as (c & Hc & Hfresh).
      rewrite (repos_hit up1 t1 id w d token p c) in H1 by done.
      injection H1 as -> <-. split; [|split; [done|by eauto]].
      destruct (repos_net up2 t2 id w) as (calls & Hnet & Hlen).
      rewrite H2 in Hnet. by exists calls.
    - (* the first call fetches and caches *)
      rewrite (repos_miss up1 t1 id w d token) in H1 by done.
      destruct (get_user_repos up1 token) as [repos|e]; [|done].
      cbn zeta in H1. destruct (String.eqb id ""); [done|].
      injection H1 as -> <-.
      assert (cache_of (file
                (wrote t1 ("user_" +:+ id)
                   (JUser (set_repositories (map to_ref p1) (mkUser id d)))
                   (wrote t1 ("repos_" +:+ id) (JRepos p1 t1)
                      (set_db (<[id := data (set_repositories (map to_ref p1)
                                               (mkUser id d))]> (db w))
                         (log_call (GetUserRepos token) w)))))
              !! ("repos_" +:+ id) = Some (JRepos p1 t1)) as Hc.
      { rewrite wrote_lookup_other by auto with keys.
        rewrite wrote_file by done. apply written_lookup. auto with keys. }
      rewrite (repos_hit up2 t2 id _ d1 token p1 t1) in H2 by done.
      injection H2 as <- <-.
      split; [|split; [done|by eauto]].
      exists [GetUserRepos token]. rewrite !wrote_net. split; [done|cbn; lia]. }
  split; [done|]. split; [done|].
  destruct (repos_keeps_entry up2 t2 id w1 p c Hentry1) as (payload & cachedAt & Hentry2).
  rewrite H2 in Hentry2. cbn [snd] in Hentry2.
  exists payload, cachedAt. split; [by rewrite getFromCache_run, Hentry2|].
  intros Hold.
  apply (repos_refetch_after_window up3 t3 id w2 d2 token payload cachedAt r3 w3);
    try done.
  by rewrite Hw2, Hw1.
Qed.

Lemma repos_cache_window_witness :
  let w1 := snd (api_github_repos octocat 1000 "42" linked) in
  let r2 := fst (api_github_repos offline 2000 "42" w1) in
  let w2 := snd (api_github_repos offline 2000 "42" w1) in
  let r3 := fst (api_github_repos octocat 400000 "42" w2) in
  let w3 := snd (api_github_repos octocat 400000 "42" w2) in
  (∃ calls, net w2 = net linked ++ calls ∧ (length (hosting_calls calls) ≤ 1)%nat) ∧
  (net w1 ≠ net linked → r2 = RJson 200 (BRepos [hello_world]) ∧ w2 = w1) ∧
  ∃ payload cachedAt,
    getFromCache ("repos_" +:+ "42") w2
      = (Returned (Some (JRepos payload cachedAt)), w2) ∧
    (5 * 60 * 1000 ≤ 400000 - cachedAt →
     net w3 = net w2 ++ [GetUserRepos "gho_16C7e42F292c"] ∧
     ∀ p3, r3 = RJson 200 (BRepos p3) →
           getFromCache ("repos_" +:+ "42") w3
             = (Returned (Some (JRepos p3 400000)), w3)).
Proof.
  cbv zeta.
  apply (repos_cache_window octocat offline octocat 1000 2000 400000 "42" linked
           (snd (api_github_repos octocat 1000 "42" linked))
           (snd (api_github_repos offline 2000 "42"
                   (snd (api_github_repos octocat 1000 "42" linked))))
           (snd (api_github_repos octocat 400000 "42"
                   (snd (api_github_repos offline 2000 "42"
                           (snd (api_github_repos octocat 1000 "42" linked))))))
           (link_data 0 583231 "gho_16C7e42F292c" "octocat" (schema_defaults 0))
           "gho_16C7e42F292c" [hello_world]).
  - vm_compute. reflexivity.
  - reflexivity.
  - discriminate.
  - reflexivity.
  - vm_compute. reflexivity.
  - apply surjective_pairing.
  - apply surjective_pairing.
  - lia.
Defined.

(** C4, as stated, fails in three ways.
    - The window starts at the [cachedAt] of the entry, not at the first of
      the two calls: with an entry cached at 0, a call at 4 minutes is
      served from the cache, and a call at 6 minutes, 2 minutes later, asks
      the provider.
    - When the snapshot file cannot be written, nothing is cached: two
      calls one second apart both ask the provider.
    - When the request of the first call fails, nothing is cached either:
      the second call, one second later, asks the provider again. *)
Lemma repos_second_call_may_refetch :
  (let w1 := snd (api_github_repos octocat 240000 "42" linked_listed) in
   let w2 := snd (api_github_repos octocat 360000 "42" w1) in
   fst (api_github_repos octocat 240000 "42" linked_listed)
     = RJson 200 (BRepos [hello_world]) ∧
   net w1 = net linked_listed ∧
   360000 - 240000 < 5 * 60 * 1000 ∧
   net w2 = net w1 ++ [GetUserRepos "gho_16C7e42F292c"]) ∧
  (let w1 := snd (api_github_repos octocat 1000 "42" linked_readonly) in
   let w2 := snd (api_github_repos octocat 2000 "42" w1) in
   fst (api_github_repos octocat 1000 "42" linked_readonly)
     = RJson 200 (BRepos [hello_world]) ∧
   net w2 = net linked_readonly
            ++ [GetUserRepos "gho_16C7e42F292c"; GetUserRepos "gho_16C7e42F292c"]) ∧
  (let w1 := snd (api_github_repos offline 1000 "42" linked) in
   let w2 := snd (api_github_repos octocat 2000 "42" w1) in
   fst (api_github_repos offline 1000 "42" linked)
     = RJson 500 (BError "connect ECONNREFUSED") ∧
   net w2 = net linked
            ++ [GetUserRepos "gho_16C7e42F292c"; GetUserRepos "gho_16C7e42F292c"]).
Proof. vm_compute. repeat split; done. Qed.

(** ** The invariant of user records *)

Lemma records_ok_initial : records_ok initial.
Proof. split; intros ? ?; cbn; by rewrite lookup_empty. Qed.

Lemma records_ok_log_call c w : records_ok w → records_ok (log_call c w).
Proof. done. Qed.

Lemma records_ok_set_db id d w :
  linked_iff_token d → records_ok w → records_ok (set_db (<[id := d]> (db w)) w).
Proof.
  intros Hd [Hdb Hfile]. split; [|done].
  intros id' d'. cbn. rewrite lookup_insert. case_decide.
  - by intros [= <-].
  - apply Hdb.
Qed.

Lemma records_ok_wrote now key value w :
  (∀ u, value = JUser u → linked_iff_token (data u)) →
  records_ok w → records_ok (wrote now key value w).
Proof.
  intros Hv [Hdb Hfile]. unfold wrote. destruct (writable w); [|done].
  split; [done|]. intros k u. cbn.
  rewrite lookup_insert. case_decide; [done|].
  rewrite lookup_insert. case_decide.
  - intros [= ->]. by apply Hv.
  - apply Hfile.
Qed.

Lemma records_ok_set_file_empty f w :
  cache_of f = ∅ → records_ok w → records_ok (set_file f w).
Proof.
  intros Hf [Hdb _]. split; [done|]. intros k u. cbn. by rewrite Hf, lookup_empty.
Qed.

Lemma linked_iff_token_agree now d :
  linked_iff_token d → linked_iff_token (agree_data now d).
Proof. done. Qed.

Lemma linked_iff_token_new now id : linked_iff_token (data (new_agreed_User now id)).
Proof. split; [done|]. by intros (t & [=] & _). Qed.

Lemma linked_iff_token_link now gid token login old :
  token ≠ "" → linked_iff_token (link_data now gid token login old).
Proof. intros Hne. split; [|done]. intros _. by exists token. Qed.

Lemma linked_iff_token_repositories l u :
  linked_iff_token (data u) → linked_iff_token (data (set_repositories l u)).
Proof. done. Qed.

Lemma agree_keeps_records now id w :
  records_ok w → records_ok (snd (api_user_agree now id w)).
Proof.
  intros Hok.
  destruct (cache_of (file w) !! ("user_" +:+ id)) as [v|] eqn:Hc.
  { by rewrite (api_user_agree_hit now id w v). }
  destruct (decide (id = "")) as [->|Hid].
  { unfold api_user_agree. unfold_handler.
    rewrite getFromCache_run, Hc. cbn. by destruct (db w !! ""). }
  destruct (db w !! id) as [d|] eqn:Hd.
  - rewrite (api_user_agree_updates now id w d) by done. cbn [snd].
    apply records_ok_wrote.
    + intros u [= <-]. apply linked_iff_token_agree. by apply Hok in Hd.
    + apply records_ok_set_db; [|done].
      apply linked_iff_token_agree. by apply Hok in Hd.
  - rewrite (api_user_agree_creates now id w) by done. cbn [snd].
    apply records_ok_wrote.
    + intros u [= <-]. apply linked_iff_token_new.
    + apply records_ok_set_db; [|done]. apply linked_iff_token_new.
Qed.

Lemma get_keeps_records now id w :
  records_ok w → records_ok (snd (api_user_get now id w)).
Proof.
  intros Hok.
  destruct (cache_of (file w) !! ("user_" +:+ id)) as [v|] eqn:Hc.
  { by rewrite (api_user_get_hit now id w v). }
  unfold api_user_get. unfold_handler.
  rewrite getFromCache_run, Hc. cbn.
  destruct (db w !! id) as [d|] eqn:Hd; [|done].
  cbn. rewrite writeCache_wrote. cbn.
  apply records_ok_wrote; [|done]. intros u [= <-]. by apply Hok in Hd.
Qed.

Lemma begin_keeps_records cfg now q w :
  records_ok w → records_ok (snd (auth_github cfg now q w)).
Proof.
  intros Hok. unfold auth_github, run_handler, bind.
  destruct (present q) as [id|]; [|done].
  rewrite writeCache_wrote. cbn. by apply records_ok_wrote.
Qed.

Lemma callback_keeps_records up now code state w :
  records_ok w → records_ok (snd (auth_github_callback up now code state w)).
Proof.
  intros Hok.
  destruct (present code) as [c|] eqn:Hcode.
  2:{ rewrite callback_missing_parameter_run; [done|]. by left. }
  destruct (present state) as [id|] eqn:Hstate.
  2:{ rewrite callback_missing_parameter_run; [done|]. by right. }
  unfold auth_github_callback, run_handler, try_catch, bind, request.
  rewrite Hcode, Hstate.
  destruct (post_access_token up c) as [access_token|e]; [|done].
  destruct (present access_token) as [token|] eqn:Htok; [|done].
  apply present_Some in Htok as [_ Hne].
  destruct (get_github_user up token) as [profile|e]; [|done].
  unfold User_findOneAndUpdate. cbn [db log_call].
  rewrite writeCache_wrote.
  assert (records_ok
    (wrote now ("user_" +:+ id)
       (JUser (mkUser id (link_data now (gh_id profile) token (gh_login profile)
                            (default (schema_defaults now) (db w !! id)))))
       (set_db (<[id := link_data now (gh_id profile) token (gh_login profile)
                          (default (schema_defaults now) (db w !! id))]> (db w))
          (log_call (GetGithubUser token) (log_call (PostAccessToken c) w))))).
  { apply records_ok_wrote.
    - intros u [= <-]. by apply linked_iff_token_link.
    - apply (records_ok_set_db id _ (log_call _ (log_call _ w))); [|done].
      by apply linked_iff_token_link. }
  by destruct (telegram_sendMessage up id).
Qed.

Lemma repos_keeps_records up now id w :
  records_ok w → records_ok (snd (api_github_repos up now id w)).
Proof.
  intros Hok.
  destruct (db w !! id) as [d|] eqn:Hd.
  2:{ by rewrite repos_no_record. }
  destruct (present (githubAccessToken d)) as [token|] eqn:Htok.
  2:{ by rewrite (repos_no_token up now id w d). }
  apply present_Some in Htok as [Htok Hne].
  destruct (fresh_payload now (cache_of (file w) !! ("repos_" +:+ id)))
    as [payload|] eqn:Hfresh.
  - apply fresh_payload_Some in Hfresh as (c & Hc & Hfresh).
    by rewrite (repos_hit up now id w d token payload c).
  - rewrite (repos_miss up now id w d token) by done.
    destruct (get_user_repos up token) as [repos|e]; [|done].
    cbn zeta. destruct (String.eqb id ""); [done|]. cbn [snd].
    apply records_ok_wrote.
    + intros u [= <-]. apply linked_iff_token_repositories. by apply Hok in Hd.
    + apply records_ok_wrote; [done|].
      apply (records_ok_set_db id _ (log_call _ w)); [|done].
      apply (linked_iff_token_repositories _ (mkUser id d)). by apply Hok in Hd.
Qed.

Lemma newrepo_keeps_records up args id w :
  records_ok w → records_ok (bot_newrepo up args id w).
Proof.
  intros [Hdb Hfile]. destruct (bot_newrepo_keeps_stores up args id w) as [Hf Hd].
  split.
  - intros id' d'. rewrite Hd. apply Hdb.
  - intros k u. rewrite Hf. apply Hfile.
Qed.

Lemma step_keeps_records o w : records_ok w → records_ok (step o w).
Proof.
  destruct o; cbn [step].
  - apply agree_keeps_records.
  - apply get_keeps_records.
  - apply begin_keeps_records.
  - apply callback_keeps_records.
  - apply repos_keeps_records.
  - apply newrepo_keeps_records.
  - by apply records_ok_set_file_empty.
  - by apply records_ok_set_file_empty.
  - done.
Qed.

Lemma run_keeps_records ops w : records_ok w → records_ok (run ops w).
Proof.
  revert w. induction ops as [|o ops IH]; intros w Hok; [done|].
  cbn. apply IH. by apply step_keeps_records.
Qed.

(** C2: in every world reached from a fresh deployment by the public
    operations (and by losses of the snapshot file between them), every
    record of the durable store, every user document read from the snapshot
    store and every record getUser answers with has [isConnected] set
    exactly when it holds a non-empty token. *)
Theorem linked_iff_token_invariant (ops : list Op) :
  let w := run ops initial in
  (∀ id d, db w !! id = Some d → linked_iff_token d) ∧
  (∀ key u, fst (getFromCache key w) = Returned (Some (JUser u)) →
            linked_iff_token (data u)) ∧
  (∀ now id u, fst (api_user_get now id w) = RJson 200 (BValue (JUser u)) →
               linked_iff_token (data u)).
Proof.
  cbv zeta. destruct (run_keeps_records ops initial records_ok_initial) as [Hdb Hfile].
  split; [done|]. split.
  - intros key u. rewrite getFromCache_run. intros [= Hc]. by apply Hfile in Hc.
  - intros now id u.
    destruct (cache_of (file (run ops initial)) !! ("user_" +:+ id)) as [v|] eqn:Hc.
    + rewrite (api_user_get_hit now id _ v) by done. intros [= ->].
      by apply Hfile in Hc.
    + unfold api_user_get. unfold_handler.
      rewrite getFromCache_run, Hc. cbn.
      destruct (db (run ops initial) !! id) as [d|] eqn:Hd; [|done].
      cbn. rewrite writeCache_wrote. cbn. intros [= <-]. by apply Hdb in Hd.
Qed.

Lemma linked_iff_token_invariant_witness :
  db linked !! "42"
    = Some (link_data 0 583231 "gho_16C7e42F292c" "octocat" (schema_defaults 0)) ∧
  linked_iff_token
    (link_data 0 583231 "gho_16C7e42F292c" "octocat" (schema_defaults 0)).
Proof.
  split; [reflexivity|].
  apply (proj1 (linked_iff_token_invariant
                  [OpCompleteAuthorization octocat 0 (Some "c0de") (Some "42")])
           "42").
  reflexivity.
Defined.

(** * Further properties of the code *)

#[local] Arguments wrote : simpl never.

(** ** The snapshot store *)

(** X1: when the snapshot file is missing or damaged and can be written,
    [writeCache] with a key the handlers build replaces the file with a
    fresh object: the key and the stamp read back, and every other key the
    handlers build reads as nothing. *)
Theorem writeCache_replaces_unreadable_file (now : Z) (key : string)
    (value : CacheValue) (w : World) :
  file w = FileAbsent ∨ file w = FileCorrupt →
  writable w = true → cache_key key →
  let w' := snd (writeCache now key value w) in
  file w' = FileObject (<["lastUpdated" := JDate now]> {[ key := value ]}) ∧
  getFromCache key w' = (Returned (Some value), w') ∧
  getFromCache "lastUpdated" w' = (Returned (Some (JDate now)), w') ∧
  ∀ k, cache_key k → k ≠ key → getFromCache k w' = (Returned None, w').
Proof.
  intros Hfile Hw Hkey%cache_key_not_stamp. cbv zeta.
  rewrite writeCache_wrote. cbn [snd].
  assert (cache_of (file w) = ∅) as Hc by (by destruct Hfile as [-> | ->]).
  assert (file (wrote now key value w)
          = FileObject (<["lastUpdated" := JDate now]> {[ key := value ]})) as Hf.
  { rewrite wrote_file by done. unfold written. by rewrite Hc, insert_empty. }
  split; [done|]. rewrite !getFromCache_run, Hf. cbn [cache_of]. split; [|split].
  - by rewrite lookup_insert_ne, lookup_singleton_eq.
  - by rewrite lookup_insert_eq.
  - intros k Hs%cache_key_not_stamp Hk. rewrite getFromCache_run, Hf. cbn [cache_of].
    by rewrite lookup_insert_ne, lookup_singleton_ne.
Qed.

Lemma writeCache_replaces_unreadable_file_witness :
  let w := run [EnvFileDamaged] linked in
  let w' := snd (writeCache 9 "oauth_7" (JOauth "7" 9) w) in
  file w' = FileObject (<["lastUpdated" := JDate 9]> {[ "oauth_7" := JOauth "7" 9 ]}) ∧
  getFromCache "oauth_7" w' = (Returned (Some (JOauth "7" 9)), w') ∧
  getFromCache "lastUpdated" w' = (Returned (Some (JDate 9)), w') ∧
  ∀ k, cache_key k → k ≠ "oauth_7" → getFromCache k w' = (Returned None, w').
Proof.
  apply (writeCache_replaces_unreadable_file 9 "oauth_7" (JOauth "7" 9)
           (run [EnvFileDamaged] linked)).
  - right. reflexivity.
  - reflexivity.
  - exists "7". right. right. reflexivity.
Defined.

Lemma written_written now1 now2 key v1 v2 f :
  written now2 key v2 (written now1 key v1 f) = written now2 key v2 f.
Proof.
  unfold written. cbn [cache_of]. f_equal.
  destruct (decide (key = "lastUpdated")) as [->|Hkey].
  - by rewrite !insert_insert_eq.
  - rewrite (insert_insert_ne _ key "lastUpdated") by done.
    by rewrite !insert_insert_eq.
Qed.

(** X2: the last write of a key wins. Two writes of the same key leave the
    world exactly as the second write alone would: the value and the stamp
    of the first write are not observable any more. *)
Theorem writeCache_last_write_wins (t1 t2 : Z) (key : string)
    (v1 v2 : CacheValue) (w : World) :
  snd (writeCache t2 key v2 (snd (writeCache t1 key v1 w)))
  = snd (writeCache t2 key v2 w).
Proof.
  rewrite !writeCache_wrote. cbn [snd]. unfold wrote.
  destruct (writable w) eqn:Hw; cbn [writable set_file]; rewrite ?Hw; [|done].
  unfold set_file. cbn [db file writable net]. by rewrite written_written.
Qed.

(** ** The terms agreement *)

(** X3: without a [user_] snapshot entry, the terms agreement of a chat
    identity is an upsert of the durable store. It answers 200; afterwards
    the record is agreed and active at [now]; an existing record keeps its
    GitHub identity, token, username, linkage, creation date and
    repositories, and a new record has none of them; no other record
    changes, nothing is sent, and the record is written to the snapshot
    store when the file can be written. *)
Theorem agree_is_upsert_without_snapshot_entry (now : Z) (id : string) (w : World) :
  id ≠ "" →
  getFromCache ("user_" +:+ id) w = (Returned None, w) →
  ∃ w' d',
    api_user_agree now id w = (RJson 200 (BSuccess "Agreement accepted"), w') ∧
    db w' !! id = Some d' ∧ isAgreed d' = true ∧ lastActive d' = now ∧
    (∀ d, db w !! id = Some d →
          githubId d' = githubId d ∧ githubAccessToken d' = githubAccessToken d ∧
          githubUsername d' = githubUsername d ∧ isConnected d' = isConnected d ∧
          createdAt d' = createdAt d ∧ repositories d' = repositories d) ∧
    (db w !! id = None → d' = mkUserData None None None true false now now []) ∧
    (∀ id', id' ≠ id → db w' !! id' = db w !! id') ∧
    net w' = net w ∧
    (writable w = true →
     getFromCache ("user_" +:+ id) w' = (Returned (Some (JUser (mkUser id d'))), w')).
Proof.
  intros Hid Hc. rewrite getFromCache_run in Hc. injection Hc as Hc.
  destruct (db w !! id) as [d|] eqn:Hd.
  - eexists _, (agree_data now d).
    split; [by apply api_user_agree_updates|].
    rewrite wrote_db, wrote_net. cbn [db set_db net].
    split; [by rewrite lookup_insert_eq|]. split; [done|]. split; [done|].
    split; [by intros ? [= <-]|]. split; [done|].
    split; [intros id' Hne; by rewrite lookup_insert_ne|]. split; [done|].
    intros Hw. rewrite getFromCache_run, wrote_file by done.
    by rewrite written_lookup by auto with keys.
  - eexists _, (data (new_agreed_User now id)).
    split; [by apply api_user_agree_creates|].
    rewrite wrote_db, wrote_net. cbn [db set_db net].
    split; [by rewrite lookup_insert_eq|]. split; [done|]. split; [done|].
    split; [done|]. split; [done|].
    split; [intros id' Hne; by rewrite lookup_insert_ne|]. split; [done|].
    intros Hw. rewrite getFromCache_run, wrote_file by done.
    by rewrite written_lookup by auto with keys.
Qed.

Lemma agree_is_upsert_without_snapshot_entry_witness :
  ∃ w' d',
    api_user_agree 7 "42" (run [EnvFileLost] linked)
      = (RJson 200 (BSuccess "Agreement accepted"), w') ∧
    db w' !! "42" = Some d' ∧ isAgreed d' = true ∧ lastActive d' = 7 ∧
    (∀ d, db (run [EnvFileLost] linked) !! "42" = Some d →
          githubId d' = githubId d ∧ githubAccessToken d' = githubAccessToken d ∧
          githubUsername d' = githubUsername d ∧ isConnected d' = isConnected d ∧
          createdAt d' = createdAt d ∧ repositories d' = repositories d) ∧
    (db (run [EnvFileLost] linked) !! "42" = None →
     d' = mkUserData None None None true false 7 7 []) ∧
    (∀ id', id' ≠ "42" → db w' !! id' = db (run [EnvFileLost] linked) !! id') ∧
    net w' = net (run [EnvFileLost] linked) ∧
    (writable (run [EnvFileLost] linked) = true →
     getFromCache ("user_" +:+ "42") w' = (Returned (Some (JUser (mkUser "42" d'))), w')).
Proof.
  apply (agree_is_upsert_without_snapshot_entry 7 "42" (run [EnvFileLost] linked)).
  - discriminate.
  - vm_compute. reflexivity.
Defined.

Lemma api_user_agree_empty_id now w :
  ∃ msg, api_user_agree now "" w = (RJson 500 (BFailure msg), w).
Proof.
  destruct (cache_of (file w) !! ("user_" +:+ "")) as [v|] eqn:Hc.
  { eexists. by apply (api_user_agree_hit now "" w v). }
  unfold api_user_agree. unfold_handler.
  rewrite getFromCache_run, Hc. cbn. destruct (db w !! ""); cbn; eauto.
Qed.

(** X4: the terms agreement of an empty chat identity never succeeds: it
    answers 500 and leaves the world as it was, whatever the stores hold
    (the schema requires a non-empty [telegramId]). *)
Theorem agree_empty_identity_fails (now : Z) (w : World) :
  ∃ msg, api_user_agree now "" w = (RJson 500 (BFailure msg), w).
Proof. apply api_user_agree_empty_id. Qed.

(** ** getUser *)

Lemma api_user_get_miss now id w :
  cache_of (file w) !! ("user_" +:+ id) = None →
  api_user_get now id w =
  match db w !! id with
  | Some d => (RJson 200 (BValue (JUser (mkUser id d))),
               wrote now ("user_" +:+ id) (JUser (mkUser id d)) w)
  | None => (RJson 200 BEmptyObject, w)
  end.
Proof.
  intros Hc. unfold api_user_get. unfold_handler.
  rewrite getFromCache_run, Hc. cbn.
  destruct (db w !! id) as [d|]; [|done]. cbn. by rewrite writeCache_wrote.
Qed.

(** X6: getUser is a read-through cache. With a record in the durable
    store, no [user_] entry and a file that can be written, the first call
    answers with the record and stores it in the snapshot; a second call,
    at any later time, gives the same answer and changes nothing. *)
Theorem getUser_fills_snapshot_then_hits (t1 t2 : Z) (id : string)
    (w : World) (d : UserData) :
  writable w = true →
  getFromCache ("user_" +:+ id) w = (Returned None, w) →
  db w !! id = Some d →
  ∃ w1,
    api_user_get t1 id w = (RJson 200 (BValue (JUser (mkUser id d))), w1) ∧
    getFromCache ("user_" +:+ id) w1 = (Returned (Some (JUser (mkUser id d))), w1) ∧
    api_user_get t2 id w1 = (RJson 200 (BValue (JUser (mkUser id d))), w1).
Proof.
  intros Hw Hc Hd. rewrite getFromCache_run in Hc. injection Hc as Hc.
  eexists. rewrite (api_user_get_miss t1 id w Hc), Hd. split; [done|].
  assert (cache_of (file (wrote t1 ("user_" +:+ id) (JUser (mkUser id d)) w))
          !! ("user_" +:+ id) = Some (JUser (mkUser id d))) as Hc1.
  { rewrite wrote_file by done. apply written_lookup. auto with keys. }
  split; [by rewrite getFromCache_run, Hc1|]. by apply api_user_get_hit.
Qed.

Lemma getUser_fills_snapshot_then_hits_witness :
  let d := link_data 0 583231 "gho_16C7e42F292c" "octocat" (schema_defaults 0) in
  ∃ w1,
    api_user_get 5 "42" (run [EnvFileLost] linked)
      = (RJson 200 (BValue (JUser (mkUser "42" d))), w1) ∧
    getFromCache ("user_" +:+ "42") w1 = (Returned (Some (JUser (mkUser "42" d))), w1) ∧
    api_user_get 6 "42" w1 = (RJson 200 (BValue (JUser (mkUser "42" d))), w1).
Proof.
  apply (getUser_fills_snapshot_then_hits 5 6 "42" (run [EnvFileLost] linked)
           (link_data 0 583231 "gho_16C7e42F292c" "octocat" (schema_defaults 0))).
  - reflexivity.
  - vm_compute. reflexivity.
  - reflexivity.
Defined.

(** X7: getUser never changes the durable store, never sends a request and
    never touches a snapshot entry other than the [user_] entry of its chat
    identity (and the stamp); for a chat identity unknown to both stores it
    answers with the empty object and changes nothing at all. *)
Theorem getUser_only_fills_its_entry (now : Z) (id : string) (w : World) :
  let w' := snd (api_user_get now id w) in
  db w' = db w ∧ net w' = net w ∧ writable w' = writable w ∧
  (∀ k, k ≠ "user_" +:+ id → k ≠ "lastUpdated" →
        fst (getFromCache k w') = fst (getFromCache k w)) ∧
  (fst (getFromCache ("user_" +:+ id) w) = Returned None → db w !! id = None →
   api_user_get now id w = (RJson 200 BEmptyObject, w)).
Proof.
  cbv zeta.
  destruct (cache_of (file w) !! ("user_" +:+ id)) as [v|] eqn:Hc.
  { rewrite (api_user_get_hit now id w v) by done. cbn [snd].
    repeat split; try done. rewrite getFromCache_run, Hc. by intros [=]. }
  rewrite (api_user_get_miss now id w Hc).
  destruct (db w !! id) as [d|]; [|done]. cbn [snd].
  rewrite wrote_db, wrote_net, wrote_writable. repeat split; try done.
  intros k Hk Hs. rewrite !getFromCache_run. cbn [fst].
  by rewrite wrote_lookup_other.
Qed.

(** ** completeAuthorization *)

Lemma callback_provider_failures_run (up : Upstream) (now : Z) (code id : string)
    (w : World) :
  code ≠ "" → id ≠ "" →
  (∀ e, post_access_token up code = Thrown e →
        auth_github_callback up now (Some code) (Some id) w
        = (RRedirectError (message e), log_call (PostAccessToken code) w)) ∧
  (∀ t, post_access_token up code = Returned t → present t = None →
        auth_github_callback up now (Some code) (Some id) w
        = (RRedirect "/error?error=No access token",
           log_call (PostAccessToken code) w)) ∧
  (∀ token e, post_access_token up code = Returned (Some token) → token ≠ "" →
              get_github_user up token = Thrown e →
              auth_github_callback up now (Some code) (Some id) w
              = (RRedirectError (message e),
                 log_call (GetGithubUser token) (log_call (PostAccessToken code) w))).
Proof.
  intros Hcode Hid.
  unfold auth_github_callback, run_handler, try_catch, bind, request.
  rewrite !present_nonempty by done. repeat split.
  - by intros e ->.
  - intros t -> Ht. by rewrite Ht.
  - intros token e -> Hne Hget. rewrite present_nonempty by done. by rewrite Hget.
Qed.

(** X8: a provider failure during the callback is reported and stops the
    flow before any store is touched. For a present code and chat identity:
    - when the token exchange throws, the answer is the error redirection
      with that message, after the one request;
    - when the exchange returns no token (or an empty one), the answer is
      the redirection "No access token", and the profile is not requested;
    - when the profile request throws, the answer is the error redirection
      with that message, and the token is stored nowhere. *)
Theorem callback_provider_failures (up : Upstream) (now : Z) (code id : string)
    (w : World) :
  code ≠ "" → id ≠ "" →
  (∀ e, post_access_token up code = Thrown e →
        auth_github_callback up now (Some code) (Some id) w
        = (RRedirectError (message e), log_call (PostAccessToken code) w)) ∧
  (∀ t, post_access_token up code = Returned t → present t = None →
        auth_github_callback up now (Some code) (Some id) w
        = (RRedirect "/error?error=No access token",
           log_call (PostAccessToken code) w)) ∧
  (∀ token e, post_access_token up code = Returned (Some token) → token ≠ "" →
              get_github_user up token = Thrown e →
              auth_github_callback up now (Some code) (Some id) w
              = (RRedirectError (message e),
                 log_call (GetGithubUser token) (log_call (PostAccessToken code) w))).
Proof. apply callback_provider_failures_run. Qed.

Lemma callback_provider_failures_witness :
  (∀ e, post_access_token offline "c0de" = Thrown e →
        auth_github_callback offline 3 (Some "c0de") (Some "42") linked
        = (RRedirectError (message e), log_call (PostAccessToken "c0de") linked)) ∧
  (∀ t, post_access_token offline "c0de" = Returned t → present t = None →
        auth_github_callback offline 3 (Some "c0de") (Some "42") linked
        = (RRedirect "/error?error=No access token",
           log_call (PostAccessToken "c0de") linked)) ∧
  (∀ token e, post_access_token offline "c0de" = Returned (Some token) → token ≠ "" →
              get_github_user offline token = Thrown e →
              auth_github_callback offline 3 (Some "c0de") (Some "42") linked
              = (RRedirectError (message e),
                 log_call (GetGithubUser token)
                   (log_call (PostAccessToken "c0de") linked))).
Proof.
  apply (callback_provider_failures offline 3 "c0de" "42" linked); discriminate.
Defined.

(** X9: a callback that does not end on the success page changes neither
    the durable store nor the snapshot file. *)
Theorem callback_failure_keeps_stores (up : Upstream) (now : Z)
    (query_code query_state : option string) (w : World) :
  (∀ id, fst (auth_github_callback up now query_code query_state w)
         ≠ RRedirect ("/success?telegramId=" +:+ id)) →
  db (snd (auth_github_callback up now query_code query_state w)) = db w ∧
  file (snd (auth_github_callback up now query_code query_state w)) = file w.
Proof.
  intros Hfail.
  destruct (present query_code) as [code|] eqn:Hcode.
  2:{ rewrite callback_missing_parameter_run; [done|]. by left. }
  destruct (present query_state) as [id|] eqn:Hstate.
  2:{ rewrite callback_missing_parameter_run; [done|]. by right. }
  apply present_Some in Hcode as [-> Hcode]. apply present_Some in Hstate as [-> Hid].
  destruct (post_access_token up code) as [t|e] eqn:Hpost.
  2:{ by rewrite (proj1 (callback_provider_failures_run up now code id w Hcode Hid) e). }
  destruct (present t) as [token|] eqn:Ht.
  2:{ by rewrite (proj1 (proj2 (callback_provider_failures_run up now code id w
                                  Hcode Hid)) t). }
  apply present_Some in Ht as [-> Hne].
  destruct (get_github_user up token) as [profile|e] eqn:Hget.
  2:{ by rewrite (proj2 (proj2 (callback_provider_failures_run up now code id w
                                  Hcode Hid)) token e). }
  exfalso. apply (Hfail id).
  by rewrite (callback_run up now code id token profile w).
Qed.

Lemma callback_failure_keeps_stores_witness :
  db (snd (auth_github_callback offline 3 (Some "c0de") (Some "42") linked))
    = db linked ∧
  file (snd (auth_github_callback offline 3 (Some "c0de") (Some "42") linked))
    = file linked.
Proof.
  apply (callback_failure_keeps_stores offline 3 (Some "c0de") (Some "42") linked).
  intros id. vm_compute. discriminate.
Defined.

(** X10: a successful callback is an upsert that touches only the linkage.
    It sends the token exchange, the profile request and the notification,
    in this order; afterwards the record of the chat identity carries the
    GitHub id, the token and the login, is connected and active at [now];
    an existing record keeps its agreement, creation date and repositories,
    a new record is not agreed; no other record changes. *)
Theorem callback_upserts_linkage_only (up : Upstream) (now : Z)
    (code id token : string) (profile : Profile) (w : World) :
  code ≠ "" → id ≠ "" →
  post_access_token up code = Returned (Some token) → token ≠ "" →
  get_github_user up token = Returned profile →
  let w1 := snd (auth_github_callback up now (Some code) (Some id) w) in
  net w1 = net w ++ [PostAccessToken code; GetGithubUser token; TelegramSendMessage id] ∧
  ∃ d', db w1 !! id = Some d' ∧
        githubId d' = Some (gh_id profile) ∧ githubAccessToken d' = Some token ∧
        githubUsername d' = Some (gh_login profile) ∧
        isConnected d' = true ∧ lastActive d' = now ∧
        (∀ d, db w !! id = Some d →
              isAgreed d' = isAgreed d ∧ createdAt d' = createdAt d ∧
              repositories d' = repositories d) ∧
        (db w !! id = None →
         isAgreed d' = false ∧ createdAt d' = now ∧ repositories d' = []) ∧
        (∀ id', id' ≠ id → db w1 !! id' = db w !! id').
Proof.
  intros Hcode Hid Hpost Hne Hget. cbv zeta.
  rewrite (callback_run up now code id token profile w) by done. cbn [snd].
  cbn [net log_call db]. rewrite wrote_net, wrote_db. cbn [net db set_db log_call].
  split; [by rewrite <- !app_assoc|].
  eexists. split; [by rewrite lookup_insert_eq|].
  split; [done|]. split; [done|]. split; [done|]. split; [done|]. split; [done|].
  split; [by intros d ->|]. split; [by intros ->|].
  intros id' Hid'. by rewrite lookup_insert_ne.
Qed.

Lemma callback_upserts_linkage_only_witness :
  let w := snd (api_user_agree 1 "42" initial) in
  let w1 := snd (auth_github_callback octocat 5 (Some "c0de") (Some "42") w) in
  net w1 = net w ++ [PostAccessToken "c0de"; GetGithubUser "gho_16C7e42F292c";
                     TelegramSendMessage "42"] ∧
  ∃ d', db w1 !! "42" = Some d' ∧
        githubId d' = Some 583231 ∧ githubAccessToken d' = Some "gho_16C7e42F292c" ∧
        githubUsername d' = Some "octocat" ∧
        isConnected d' = true ∧ lastActive d' = 5 ∧
        (∀ d, db w !! "42" = Some d →
              isAgreed d' = isAgreed d ∧ createdAt d' = createdAt d ∧
              repositories d' = repositories d) ∧
        (db w !! "42" = None →
         isAgreed d' = false ∧ createdAt d' = 5 ∧ repositories d' = []) ∧
        (∀ id', id' ≠ "42" → db w1 !! id' = db w !! id').
Proof.
  apply (callback_upserts_linkage_only octocat 5 "c0de" "42" "gho_16C7e42F292c"
           (mkProfile 583231 "octocat") (snd (api_user_agree 1 "42" initial)));
    (discriminate || reflexivity).
Defined.

(** X11: authorizing again overwrites the linkage. After two successful
    callbacks of a chat identity the record carries the token and the login
    of the second; it stays connected and keeps the agreement it had. *)
Theorem callback_again_overwrites_token (up1 up2 : Upstream) (t1 t2 : Z)
    (code1 code2 id token1 token2 : string) (profile1 profile2 : Profile)
    (w : World) :
  code1 ≠ "" → code2 ≠ "" → id ≠ "" →
  post_access_token up1 code1 = Returned (Some token1) → token1 ≠ "" →
  get_github_user up1 token1 = Returned profile1 →
  post_access_token up2 code2 = Returned (Some token2) → token2 ≠ "" →
  get_github_user up2 token2 = Returned profile2 →
  let w1 := snd (auth_github_callback up1 t1 (Some code1) (Some id) w) in
  let w2 := snd (auth_github_callback up2 t2 (Some code2) (Some id) w1) in
  ∃ d2, db w2 !! id = Some d2 ∧
        githubAccessToken d2 = Some token2 ∧
        githubUsername d2 = Some (gh_login profile2) ∧
        isConnected d2 = true ∧
        isAgreed d2 = isAgreed (default (schema_defaults t1) (db w !! id)).
Proof.
  intros Hc1 Hc2 Hid Hp1 Hn1 Hg1 Hp2 Hn2 Hg2. cbv zeta.
  rewrite (callback_run up1 t1 code1 id token1 profile1 w) by done. cbn [snd].
  rewrite (callback_run up2 t2 code2 id token2 profile2) by done. cbn [snd].
  repeat (cbn [db set_db log_call]; rewrite ?wrote_db).
  rewrite !lookup_insert_eq. eexists. split; [done|]. done.
Qed.

Lemma callback_again_overwrites_token_witness :
  let up2 := mkUpstream (λ _, Returned (Some "gho_second"))
               (λ _, Returned (mkProfile 1 "hubot")) (get_user_repos octocat)
               (post_user_repos octocat) (telegram_sendMessage octocat) in
  let w1 := snd (auth_github_callback octocat 1 (Some "c0de") (Some "42") initial) in
  let w2 := snd (auth_github_callback up2 2 (Some "c1de") (Some "42") w1) in
  ∃ d2, db w2 !! "42" = Some d2 ∧
        githubAccessToken d2 = Some "gho_second" ∧
        githubUsername d2 = Some "hubot" ∧
        isConnected d2 = true ∧
        isAgreed d2 = isAgreed (default (schema_defaults 1) (db initial !! "42")).
Proof.
  apply (callback_again_overwrites_token octocat
           (mkUpstream (λ _, Returned (Some "gho_second"))
              (λ _, Returned (mkProfile 1 "hubot")) (get_user_repos octocat)
              (post_user_repos octocat) (telegram_sendMessage octocat))
           1 2 "c0de" "c1de" "42" "gho_16C7e42F292c" "gho_second"
           (mkProfile 583231 "octocat") (mkProfile 1 "hubot") initial);
    (discriminate || reflexivity).
Defined.

(** X12: the notification is best effort. Two outsides that answer the
    token exchange and the profile request alike give the same answer and
    the same world, whether the Telegram message goes through or throws. *)
Theorem callback_ignores_notification_outcome (up up' : Upstream) (now : Z)
    (query_code query_state : option string) (w : World) :
  post_access_token up = post_access_token up' →
  get_github_user up = get_github_user up' →
  auth_github_callback up now query_code query_state w
  = auth_github_callback up' now query_code query_state w.
Proof.
  intros Hpost Hget.
  unfold auth_github_callback, run_handler, try_catch, bind, request.
  rewrite Hpost, Hget.
  destruct (present query_code) as [code|]; [|done].
  destruct (present query_state) as [id|]; [|done].
  destruct (post_access_token up' code) as [t|e]; [|done].
  destruct (present t) as [token|]; [|done].
  destruct (get_github_user up' token) as [profile|e]; [|done].
  unfold User_findOneAndUpdate. rewrite !writeCache_wrote.
  by destruct (telegram_sendMessage up id), (telegram_sendMessage up' id).
Qed.

Lemma callback_ignores_notification_outcome_witness :
  let muted := mkUpstream (post_access_token octocat) (get_github_user octocat)
                 (get_user_repos octocat) (post_user_repos octocat)
                 (λ _, Thrown (AxiosError "Forbidden: bot was blocked by the user" None)) in
  auth_github_callback octocat 1 (Some "c0de") (Some "42") initial
  = auth_github_callback muted 1 (Some "c0de") (Some "42") initial.
Proof.
  apply (callback_ignores_notification_outcome octocat
           (mkUpstream (post_access_token octocat) (get_github_user octocat)
              (get_user_repos octocat) (post_user_repos octocat)
              (λ _, Thrown (AxiosError "Forbidden: bot was blocked by the user" None)))
           1 (Some "c0de") (Some "42") initial); reflexivity.
Defined.

(** X13: the callback never reads the snapshot file: its answer, the
    durable store and the requests it sends are the same whatever the file
    holds, and so whether beginAuthorization left a marker or not. *)
Theorem callback_never_reads_snapshot (up : Upstream) (now : Z)
    (query_code query_state : option string) (w : World) (f : File) (b : bool) :
  let r := auth_github_callback up now query_code query_state w in
  let r' := auth_github_callback up now query_code query_state
              (mkWorld (db w) f b (net w)) in
  fst r' = fst r ∧ db (snd r') = db (snd r) ∧ net (snd r') = net (snd r).
Proof.
  cbv zeta.
  unfold auth_github_callback, run_handler, try_catch, bind, request.
  destruct (present query_code) as [code|]; [|done].
  destruct (present query_state) as [id|]; [|done].
  destruct (post_access_token up code) as [t|e]; [|done].
  destruct (present t) as [token|]; [|done].
  destruct (get_github_user up token) as [profile|e]; [|done].
  unfold User_findOneAndUpdate. rewrite !writeCache_wrote.
  destruct (telegram_sendMessage up id); cbn; by rewrite !wrote_db, !wrote_net.
Qed.

(** ** beginAuthorization *)

(** X14: beginAuthorization without a chat identity (a missing or empty
    parameter) redirects to the error page "No Telegram ID" and changes
    nothing; with one, it sends no request and, when the file can be
    written, leaves the marker [{telegramId, timestamp}] of this call under
    the [oauth_] key, replacing any earlier marker. *)
Theorem begin_authorization_marker (cfg : Config) (now : Z)
    (query_telegramId : option string) (w : World) :
  (query_telegramId = None ∨ query_telegramId = Some "" →
   auth_github cfg now query_telegramId w
   = (RRedirect "/error?error=No Telegram ID", w)) ∧
  (∀ id, query_telegramId = Some id → id ≠ "" →
         let w' := snd (auth_github cfg now query_telegramId w) in
         net w' = net w ∧
         (writable w = true →
          getFromCache ("oauth_" +:+ id) w' = (Returned (Some (JOauth id now)), w'))).
Proof.
  split.
  - intros H. apply present_None in H. unfold auth_github, run_handler.
    by rewrite H.
  - intros id -> Hid. cbv zeta. rewrite auth_github_run by done. cbn [snd].
    rewrite wrote_net. split; [done|]. intros Hw.
    rewrite getFromCache_run, wrote_file by done.
    by rewrite written_lookup by auto with keys.
Qed.

(** ** listRepositories *)

(** X15: a fetch mirrors the payload into the record. For a linked chat
    identity without a fresh [repos_] entry, when the provider returns a
    list, the call sends that one request and answers with the list as
    received; the record of the durable store then lists one
    [{name, full_name, url, private}] per repository, in the same order, and
    keeps every other field; no other record changes; when the file can be
    written, the [repos_] entry holds the list with [cachedAt] at [now] and
    the [user_] entry holds the updated record. *)
Theorem repos_fetch_mirrors_payload (up : Upstream) (now : Z) (id : string)
    (w : World) (d : UserData) (token : string) (repos : list GhRepo) :
  id ≠ "" →
  db w !! id = Some d → githubAccessToken d = Some token → token ≠ "" →
  fresh_payload now (cache_of (file w) !! ("repos_" +:+ id)) = None →
  get_user_repos up token = Returned repos →
  ∃ w' d',
    api_github_repos up now id w = (RJson 200 (BRepos repos), w') ∧
    net w' = net w ++ [GetUserRepos token] ∧
    db w' !! id = Some d' ∧
    repositories d' = map to_ref repos ∧
    length (repositories d') = length repos ∧
    githubId d' = githubId d ∧ githubAccessToken d' = githubAccessToken d ∧
    githubUsername d' = githubUsername d ∧ isAgreed d' = isAgreed d ∧
    isConnected d' = isConnected d ∧ createdAt d' = createdAt d ∧
    lastActive d' = lastActive d ∧
    (∀ id', id' ≠ id → db w' !! id' = db w !! id') ∧
    (writable w = true →
     getFromCache ("repos_" +:+ id) w' = (Returned (Some (JRepos repos now)), w') ∧
     getFromCache ("user_" +:+ id) w' = (Returned (Some (JUser (mkUser id d'))), w')).
Proof.
  intros Hid Hd Htok Hne Hstale Hrepos.
  eexists _, (data (set_repositories (map to_ref repos) (mkUser id d))).
  rewrite (repos_miss up now id w d token) by done. rewrite Hrepos. cbn zeta.
  rewrite (proj2 (String.eqb_neq _ _) Hid).
  split; [done|]. rewrite !wrote_net, !wrote_db. cbn [net db set_db log_call].
  split; [done|]. split; [by rewrite lookup_insert_eq|].
  split; [done|].
  split; [cbn [repositories data set_repositories]; by rewrite length_map|].
  do 7 (split; [done|]).
  split; [intros id' Hid'; by rewrite lookup_insert_ne|].
  intros Hw. rewrite !getFromCache_run. split.
  - rewrite wrote_lookup_other by auto with keys.
    rewrite wrote_file by done. by rewrite written_lookup by auto with keys.
  - rewrite wrote_file by (by rewrite wrote_writable).
    by rewrite written_lookup by auto with keys.
Qed.

Lemma repos_fetch_mirrors_payload_witness :
  let d := link_data 0 583231 "gho_16C7e42F292c" "octocat" (schema_defaults 0) in
  ∃ w' d',
    api_github_repos octocat 9 "42" linked = (RJson 200 (BRepos [hello_world]), w') ∧
    net w' = net linked ++ [GetUserRepos "gho_16C7e42F292c"] ∧
    db w' !! "42" = Some d' ∧
    repositories d' = map to_ref [hello_world] ∧
    length (repositories d') = length [hello_world] ∧
    githubId d' = githubId d ∧ githubAccessToken d' = githubAccessToken d ∧
    githubUsername d' = githubUsername d ∧ isAgreed d' = isAgreed d ∧
    isConnected d' = isConnected d ∧ createdAt d' = createdAt d ∧
    lastActive d' = lastActive d ∧
    (∀ id', id' ≠ "42" → db w' !! id' = db linked !! id') ∧
    (writable linked = true →
     getFromCache ("repos_" +:+ "42") w'
       = (Returned (Some (JRepos [hello_world] 9)), w') ∧
     getFromCache ("user_" +:+ "42") w'
       = (Returned (Some (JUser (mkUser "42" d'))), w')).
Proof.
  apply (repos_fetch_mirrors_payload octocat 9 "42" linked
           (link_data 0 583231 "gho_16C7e42F292c" "octocat" (schema_defaults 0))
           "gho_16C7e42F292c" [hello_world]);
    (discriminate || reflexivity).
Defined.

(** X16: when the request to the provider throws, listRepositories answers
    500 with the message of the error, after that one request, and changes
    neither store: the record keeps its earlier [repositories] and an
    expired [repos_] entry stays in the snapshot. *)
Theorem repos_upstream_failure (up : Upstream) (now : Z) (id : string)
    (w : World) (d : UserData) (token : string) (e : Exn) :
  db w !! id = Some d → githubAccessToken d = Some token → token ≠ "" →
  fresh_payload now (cache_of (file w) !! ("repos_" +:+ id)) = None →
  get_user_repos up token = Thrown e →
  api_github_repos up now id w
  = (RJson 500 (BError (message e)), log_call (GetUserRepos token) w).
Proof.
  intros Hd Htok Hne Hstale Hrepos.
  rewrite (repos_miss up now id w d token) by done. by rewrite Hrepos.
Qed.

Lemma repos_upstream_failure_witness :
  api_github_repos offline 9 "42" linked
  = (RJson 500 (BError "connect ECONNREFUSED"),
     log_call (GetUserRepos "gho_16C7e42F292c") linked).
Proof.
  apply (repos_upstream_failure offline 9 "42" linked
           (link_data 0 583231 "gho_16C7e42F292c" "octocat" (schema_defaults 0))
           "gho_16C7e42F292c" (AxiosError "connect ECONNREFUSED" None));
    (discriminate || reflexivity).
Defined.

(** ** Operations and the durable store *)

Lemma never_regresses_refl d : never_regresses d d.
Proof. by repeat split. Qed.

Lemma never_regresses_trans d1 d2 d3 :
  never_regresses d1 d2 → never_regresses d2 d3 → never_regresses d1 d3.
Proof.
  intros (A1 & C1 & T1 & E1) (A2 & C2 & T2 & E2).
  repeat split; [auto..|]. by rewrite E2.
Qed.

Lemma callback_db up now query_code query_state w :
  db (snd (auth_github_callback up now query_code query_state w)) = db w ∨
  ∃ id token profile,
    present query_state = Some id ∧ token ≠ "" ∧
    db (snd (auth_github_callback up now query_code query_state w))
    = <[id := link_data now (gh_id profile) token (gh_login profile)
                (default (schema_defaults now) (db w !! id))]> (db w).
Proof.
  destruct (present query_code) as [code|] eqn:Hcode.
  2:{ left. rewrite callback_missing_parameter_run; [done|]. by left. }
  destruct (present query_state) as [id|] eqn:Hstate.
  2:{ left. rewrite callback_missing_parameter_run; [done|]. by right. }
  apply present_Some in Hcode as [-> Hcode].
  pose proof Hstate as Hstate'. apply present_Some in Hstate as [-> Hid].
  destruct (callback_provider_failures_run up now code id w Hcode Hid)
    as (Hthrow & Hnone & Hprofile).
  destruct (post_access_token up code) as [t|e] eqn:Hpost.
  2:{ left. by rewrite (Hthrow e). }
  destruct (present t) as [token|] eqn:Ht.
  2:{ left. by rewrite (Hnone t). }
  apply present_Some in Ht as [-> Hne].
  destruct (get_github_user up token) as [profile|e] eqn:Hget.
  2:{ left. by rewrite (Hprofile token e). }
  right. exists id, token, profile. split; [done|]. split; [done|].
  rewrite (callback_run up now code id token profile w) by done.
  cbn [snd db log_call]. by rewrite wrote_db.
Qed.

(** What one operation does to the durable store: nothing, or the upsert of
    the record of its chat identity by a state that undoes nothing. *)
Lemma step_db o w :
  db (step o w) = db w ∨
  ∃ id d', op_identity o = Some id ∧ db (step o w) = <[id := d']> (db w) ∧
           ∀ d, db w !! id = Some d → never_regresses d d'.
Proof.
  destruct o as [now id|now id|cfg now q|up now code state|up now id|up args id| | |b];
    cbn [step op_identity].
  - (* agreement *)
    destruct (cache_of (file w) !! ("user_" +:+ id)) as [v|] eqn:Hc.
    { left. by rewrite (api_user_agree_hit now id w v). }
    destruct (decide (id = "")) as [->|Hid].
    { left. destruct (api_user_agree_empty_id now w) as [msg ->]. done. }
    right. destruct (db w !! id) as [d|] eqn:Hd.
    + exists id, (agree_data now d).
      rewrite (api_user_agree_updates now id w d) by done. cbn [snd].
      rewrite wrote_db. split; [done|]. split; [done|].
      intros d0 Hd0. rewrite Hd in Hd0. injection Hd0 as <-. by repeat split.
    + exists id, (data (new_agreed_User now id)).
      rewrite (api_user_agree_creates now id w) by done. cbn [snd].
      rewrite wrote_db. split; [done|]. split; [done|].
      intros d0 Hd0. by rewrite Hd in Hd0.
  - (* getUser *)
    left. destruct (cache_of (file w) !! ("user_" +:+ id)) as [v|] eqn:Hc.
    { by rewrite (api_user_get_hit now id w v). }
    rewrite (api_user_get_miss now id w Hc).
    destruct (db w !! id); [|done]. cbn [snd]. by rewrite wrote_db.
  - (* beginAuthorization *)
    left. unfold auth_github, run_handler, bind.
    destruct (present q) as [id|]; [|done].
    rewrite writeCache_wrote. cbn. by rewrite wrote_db.
  - (* completeAuthorization *)
    destruct (callback_db up now code state w)
      as [H|(id & token & profile & Hid & Hne & H)]; [by left|].
    right. exists id. eexists. split; [done|]. split; [exact H|].
    intros d Hd. rewrite Hd. repeat split; try done.
    intros _. by exists token.
  - (* listRepositories *)
    destruct (db w !! id) as [d|] eqn:Hd.
    2:{ left. by rewrite repos_no_record. }
    destruct (present (githubAccessToken d)) as [token|] eqn:Htok.
    2:{ left. by rewrite (repos_no_token up now id w d). }
    apply present_Some in Htok as [Htok Hne].
    destruct (fresh_payload now (cache_of (file w) !! ("repos_" +:+ id)))
      as [payload|] eqn:Hfresh.
    { left. apply fresh_payload_Some in Hfresh as (c & Hc & Hfresh).
      by rewrite (repos_hit up now id w d token payload c). }
    rewrite (repos_miss up now id w d token) by done.
    destruct (get_user_repos up token) as [repos|e]; [|by left].
    cbn zeta. destruct (String.eqb id ""); [by left|]. right.
    exists id. eexists. split; [done|]. cbn [snd]. rewrite !wrote_db.
    split; [done|]. intros d0 Hd0. rewrite Hd in Hd0. injection Hd0 as <-.
    by repeat split.
  - (* createRepository *)
    left. apply bot_newrepo_keeps_stores.
  - by left.
  - by left.
  - by left.
Qed.

(** X17: an operation acts on the record of its own chat identity only:
    the record of every other chat identity is the same before and after,
    present or not. *)
Theorem step_keeps_other_records (o : Op) (id : string) (w : World) :
  op_identity o ≠ Some id → db (step o w) !! id = db w !! id.
Proof.
  intros Hother.
  destruct (step_db o w) as [-> | (id0 & d' & Hid0 & -> & _)]; [done|].
  rewrite lookup_insert_ne; [done|]. intros ->. by rewrite Hid0 in Hother.
Qed.

Lemma step_keeps_other_records_witness :
  db (step (OpAgree 3 "7") linked) !! "42" = db linked !! "42".
Proof.
  apply (step_keeps_other_records (OpAgree 3 "7") "42" linked). discriminate.
Defined.

Lemma step_never_regresses o w id d :
  db w !! id = Some d →
  ∃ d', db (step o w) !! id = Some d' ∧ never_regresses d d'.
Proof.
  intros Hd.
  destruct (step_db o w) as [-> | (id0 & d' & Hid0 & -> & Hreg)].
  { exists d. split; [done|]. apply never_regresses_refl. }
  destruct (decide (id0 = id)) as [->|Hne].
  - exists d'. rewrite lookup_insert_eq. split; [done|]. by apply Hreg.
  - exists d. rewrite lookup_insert_ne by done. split; [done|].
    apply never_regresses_refl.
Qed.

(** X18: nothing is ever undone. Through any sequence of operations (and
    losses of the snapshot file), a record of the durable store is never
    deleted; once agreed it stays agreed, once connected it stays
    connected, once it holds a non-empty token it holds one, and its
    creation date never changes. *)
Theorem run_never_regresses (ops : list Op) (w : World) (id : string) (d : UserData) :
  db w !! id = Some d →
  ∃ d', db (run ops w) !! id = Some d' ∧
        (isAgreed d = true → isAgreed d' = true) ∧
        (isConnected d = true → isConnected d' = true) ∧
        (has_token d → has_token d') ∧
        createdAt d' = createdAt d.
Proof.
  revert w d. induction ops as [|o ops IH]; intros w d Hd.
  { exists d. by repeat split. }
  destruct (step_never_regresses o w id d Hd) as (d1 & Hd1 & Hreg1).
  destruct (IH (step o w) d1 Hd1) as (d' & Hd' & Hreg').
  exists d'. split; [done|].
  by apply (never_regresses_trans d d1 d').
Qed.

Lemma run_never_regresses_witness :
  let d := link_data 0 583231 "gho_16C7e42F292c" "octocat" (schema_defaults 0) in
  ∃ d', db (run [OpAgree 1 "42"; EnvFileLost; OpAgree 2 "42";
                 OpListRepositories offline 3 "42"] linked) !! "42" = Some d' ∧
        (isAgreed d = true → isAgreed d' = true) ∧
        (isConnected d = true → isConnected d' = true) ∧
        (has_token d → has_token d') ∧
        createdAt d' = createdAt d.
Proof.
  apply (run_never_regresses
           [OpAgree 1 "42"; EnvFileLost; OpAgree 2 "42";
            OpListRepositories offline 3 "42"] linked "42"
           (link_data 0 583231 "gho_16C7e42F292c" "octocat" (schema_defaults 0))).
  reflexivity.
Defined.

(** ** The command [/newrepo] *)

(** X19: the arguments of [/newrepo] ending in the word private. The first
    argument is the name, the last one makes the repository private and is
    not part of the description, which is the arguments in between joined
    by single spaces. A lone argument private is both the name and the
    flag. *)
Theorem newrepo_args_private (arg0 : string) (rest : list string) :
  newrepo_args (arg0 :: rest ++ ["private"])
    = Some (arg0, String.concat " " rest, true) ∧
  newrepo_args ["private"] = Some ("private", "", true).
Proof.
  split; [|reflexivity].
  unfold newrepo_args.
  assert (last (arg0 :: rest ++ ["private"]) = Some "private") as Hlast.
  { change (last ((arg0 :: rest) ++ ["private"]) = Some "private").
    apply last_snoc. }
  rewrite Hlast. rewrite bool_decide_eq_true_2 by done.
  replace (length (arg0 :: rest ++ ["private"]) - 1)%nat with (S (length rest)).
  2:{ cbn [length]. rewrite length_app. cbn [length]. lia. }
  cbn [take drop]. rewrite take_app_length. by rewrite drop_0.
Qed.

(** X20: the arguments of [/newrepo] not ending in the word private: the
    repository is public, the first argument is the name and all the others,
    joined by single spaces, are the description; with no argument at all
    there is nothing to create. *)
Theorem newrepo_args_public (arg0 : string) (rest : list string) :
  last (arg0 :: rest) ≠ Some "private" →
  newrepo_args (arg0 :: rest) = Some (arg0, String.concat " " rest, false) ∧
  newrepo_args [] = None.
Proof.
  intros Hlast. split; [|reflexivity]. unfold newrepo_args.
  rewrite bool_decide_eq_false_2 by done.
  rewrite Nat.sub_0_r, firstn_all. cbn [drop]. by rewrite drop_0.
Qed.

Lemma newrepo_args_public_witness :
  newrepo_args ["site"; "My"; "pages"] = Some ("site", String.concat " " ["My"; "pages"], false) ∧
  newrepo_args [] = None.
Proof.
  apply (newrepo_args_public "site" ["My"; "pages"]). discriminate.
Defined.

Lemma bot_newrepo_run up args id w repo_name description isPrivate :
  newrepo_args args = Some (repo_name, description, isPrivate) →
  bot_newrepo up args id w =
  match db w !! id ≫= (λ d, present (githubAccessToken d)) with
  | None => log_call (TelegramReply id ReplyConnectFirst) w
  | Some token =>
      let w1 := log_call (PostUserRepos token repo_name description isPrivate)
                  (log_call (TelegramReply id ReplyCreating) w) in
      match post_user_repos up token repo_name description isPrivate with
      | Returned repo => log_call (TelegramReply id (ReplyCreated repo)) w1
      | Thrown e => log_call (TelegramReply id (ReplyCreateError (error_text e))) w1
      end
  end.
Proof.
  intros Hargs.
  unfold bot_newrepo, try_catch, bind, User_findOne, request, ctx_reply.
  rewrite Hargs. destruct (db w !! id) as [d|]; [|done]. cbn.
  destruct (present (githubAccessToken d)) as [token|]; [|done]. cbn.
  by destruct (post_user_repos up token repo_name description isPrivate).
Qed.

(** X21: [/newrepo] needs the linkage. With a name given, for a chat
    identity with no record, or with a record whose token is missing or
    empty, the only effect is the reply asking to connect first: no request
    goes to the provider. *)
Theorem newrepo_without_linkage (up : Upstream) (args : list string) (id : string)
    (w : World) :
  args ≠ [] →
  (db w !! id = None ∨
   ∃ d, db w !! id = Some d ∧
        (githubAccessToken d = None ∨ githubAccessToken d = Some "")) →
  bot_newrepo up args id w = log_call (TelegramReply id ReplyConnectFirst) w.
Proof.
  intros Hargs Hnot.
  destruct (newrepo_args args) as [[[repo_name description] isPrivate]|] eqn:Hparse.
  2:{ by destruct args. }
  rewrite (bot_newrepo_run up args id w repo_name description isPrivate Hparse).
  destruct Hnot as [-> | (d & -> & Htok)]; [done|].
  apply present_None in Htok. cbn. by rewrite Htok.
Qed.

Lemma newrepo_without_linkage_witness :
  bot_newrepo octocat ["foo"] "42" initial
  = log_call (TelegramReply "42" ReplyConnectFirst) initial.
Proof.
  apply (newrepo_without_linkage octocat ["foo"] "42" initial).
  - discriminate.
  - left. reflexivity.
Defined.

(** X22: when the provider refuses the creation, [/newrepo] reports it and
    nothing else happens: after the reply "creating" and the one request,
    the last reply carries the message of the response body when there is a
    non-empty one, the message of the error otherwise. *)
Theorem newrepo_provider_error (up : Upstream) (args : list string) (id : string)
    (w : World) (d : UserData) (token repo_name description : string)
    (isPrivate : bool) (e : Exn) :
  db w !! id = Some d → githubAccessToken d = Some token → token ≠ "" →
  newrepo_args args = Some (repo_name, description, isPrivate) →
  post_user_repos up token repo_name description isPrivate = Thrown e →
  ∃ text,
    bot_newrepo up args id w
    = mkWorld (db w) (file w) (writable w)
        (net w ++ [TelegramReply id ReplyCreating;
                   PostUserRepos token repo_name description isPrivate;
                   TelegramReply id (ReplyCreateError text)]) ∧
    (∀ m body, e = AxiosError m (Some body) → body ≠ "" → text = body) ∧
    (∀ m, e = AxiosError m None ∨ e = AxiosError m (Some "") → text = m).
Proof.
  intros Hd Htok Hne Hargs Hpost. exists (error_text e).
  rewrite (bot_newrepo_run up args id w repo_name description isPrivate Hargs).
  rewrite Hd. cbn. rewrite Htok, present_nonempty by done. cbn zeta.
  rewrite Hpost. unfold log_call. cbn [db file writable net].
  rewrite <- !app_assoc. split; [done|]. split.
  - intros m body -> Hbody. cbn. by rewrite (proj2 (String.eqb_neq _ _) Hbody).
  - by intros m [-> | ->].
Qed.

Lemma newrepo_provider_error_witness :
  let up := mkUpstream (post_access_token octocat) (get_github_user octocat)
              (get_user_repos octocat)
              (λ _ _ _ _, Thrown (AxiosError "Request failed with status code 422"
                                    (Some "Repository creation failed.")))
              (telegram_sendMessage octocat) in
  ∃ text,
    bot_newrepo up ["Hello-World"] "42" linked
    = mkWorld (db linked) (file linked) (writable linked)
        (net linked ++ [TelegramReply "42" ReplyCreating;
                        PostUserRepos "gho_16C7e42F292c" "Hello-World" "" false;
                        TelegramReply "42" (ReplyCreateError text)]) ∧
    (∀ m body, AxiosError "Request failed with status code 422"
                 (Some "Repository creation failed.") = AxiosError m (Some body) →
               body ≠ "" → text = body) ∧
    (∀ m, AxiosError "Request failed with status code 422"
            (Some "Repository creation failed.") = AxiosError m None ∨
          AxiosError "Request failed with status code 422"
            (Some "Repository creation failed.") = AxiosError m (Some "") →
          text = m).
Proof.
  apply (newrepo_provider_error
           (mkUpstream (post_access_token octocat) (get_github_user octocat)
              (get_user_repos octocat)
              (λ _ _ _ _, Thrown (AxiosError "Request failed with status code 422"
                                    (Some "Repository creation failed.")))
              (telegram_sendMessage octocat))
           ["Hello-World"] "42" linked
           (link_data 0 583231 "gho_16C7e42F292c" "octocat" (schema_defaults 0))
           "gho_16C7e42F292c" "Hello-World" "" false
           (AxiosError "Request failed with status code 422"
              (Some "Repository creation failed.")));
    (discriminate || reflexivity).
Defined.

(** ** The command [/start] and the connection check *)

Lemma choose_screen_user u :
  let screen := choose_screen (BValue (JUser u)) in
  (screen = MainMenu ↔ isAgreed (data u) = true ∧ has_token (data u)) ∧
  (screen = ConnectPrompt ↔ isAgreed (data u) = true ∧ ¬ has_token (data u)) ∧
  (screen = Agreement ↔ isAgreed (data u) = false).
Proof.
  cbn. destruct (isAgreed (data u)).
  - destruct (present (githubAccessToken (data u))) as [t|] eqn:Ht.
    + assert (has_token (data u)) by (apply has_token_present; eauto).
      repeat split; try done; by intros [_ ?].
    + assert (¬ has_token (data u)).
      { intros [t Hp]%has_token_present. by rewrite Ht in Hp. }
      repeat split; try done; by intros [_ ?].
  - repeat split; try done; by intros [? _].
Qed.

Lemma bot_start_hit reachable now id w v :
  cache_of (file w) !! ("user_" +:+ id) = Some v →
  bot_start reachable now id w = (choose_screen (BValue v), w).
Proof.
  intros Hc. unfold bot_start, try_catch, bind.
  by rewrite getFromCache_run, Hc.
Qed.

Lemma bot_start_miss reachable now id w :
  cache_of (file w) !! ("user_" +:+ id) = None →
  bot_start reachable now id w =
  if reachable then
    match db w !! id with
    | Some d => (choose_screen (BValue (JUser (mkUser id d))),
                 wrote now ("user_" +:+ id) (JUser (mkUser id d)) w)
    | None => (Agreement, w)
    end
  else (Agreement, w).
Proof.
  intros Hc. unfold bot_start, try_catch, bind, get_api_user.
  rewrite getFromCache_run, Hc. destruct reachable; [|done].
  rewrite (api_user_get_miss now id w Hc). by destruct (db w !! id).
Qed.

(** X23: [/start] trusts the snapshot. When the snapshot store holds the
    user document of the sender, the answer is decided by that document
    alone, the durable store is not asked and nothing changes: the main
    menu when the document is agreed and holds a non-empty token, the
    prompt to connect when it is agreed without one, the agreement
    otherwise. *)
Theorem start_trusts_snapshot (reachable : bool) (now : Z) (id : string)
    (w : World) (u : User) :
  getFromCache ("user_" +:+ id) w = (Returned (Some (JUser u)), w) →
  ∃ screen,
    bot_start reachable now id w = (screen, w) ∧
    (screen = MainMenu ↔ isAgreed (data u) = true ∧ has_token (data u)) ∧
    (screen = ConnectPrompt ↔ isAgreed (data u) = true ∧ ¬ has_token (data u)) ∧
    (screen = Agreement ↔ isAgreed (data u) = false).
Proof.
  intros Hc. rewrite getFromCache_run in Hc. injection Hc as Hc.
  exists (choose_screen (BValue (JUser u))).
  split; [by apply bot_start_hit|]. apply choose_screen_user.
Qed.

Lemma start_trusts_snapshot_witness :
  let u := mkUser "42" (link_data 0 583231 "gho_16C7e42F292c" "octocat"
                          (schema_defaults 0)) in
  ∃ screen,
    bot_start true 4 "42" linked = (screen, linked) ∧
    (screen = MainMenu ↔ isAgreed (data u) = true ∧ has_token (data u)) ∧
    (screen = ConnectPrompt ↔ isAgreed (data u) = true ∧ ¬ has_token (data u)) ∧
    (screen = Agreement ↔ isAgreed (data u) = false).
Proof.
  apply (start_trusts_snapshot true 4 "42" linked
           (mkUser "42" (link_data 0 583231 "gho_16C7e42F292c" "octocat"
                           (schema_defaults 0)))).
  vm_compute. reflexivity.
Defined.

(** X24: without a [user_] entry, [/start] asks the bot's own endpoint.
    When the request gets through, the answer is decided by the record of
    the durable store (the agreement when there is none) and the world is
    the one getUser leaves; when it does not, the answer is the agreement
    and nothing changes, whatever the durable store holds. *)
Theorem start_falls_back_to_durable_store (now : Z) (id : string) (w : World) :
  getFromCache ("user_" +:+ id) w = (Returned None, w) →
  bot_start false now id w = (Agreement, w) ∧
  ∃ screen,
    bot_start true now id w = (screen, snd (api_user_get now id w)) ∧
    (screen = MainMenu ↔
     ∃ d, db w !! id = Some d ∧ isAgreed d = true ∧ has_token d) ∧
    (screen = ConnectPrompt ↔
     ∃ d, db w !! id = Some d ∧ isAgreed d = true ∧ ¬ has_token d) ∧
    (screen = Agreement ↔
     db w !! id = None ∨ ∃ d, db w !! id = Some d ∧ isAgreed d = false).
Proof.
  intros Hc. rewrite getFromCache_run in Hc. injection Hc as Hc.
  rewrite !(bot_start_miss _ now id w Hc), (api_user_get_miss now id w Hc).
  split; [done|].
  destruct (db w !! id) as [d|].
  - eexists. split; [done|]. cbn [snd].
    destruct (choose_screen_user (mkUser id d)) as (Hmenu & Hprompt & Hagree).
    cbn [data] in *. cbv zeta in *. repeat split.
    + intros H. exists d. split; [done|]. by apply Hmenu.
    + intros (d0 & [= <-] & H). by apply Hmenu.
    + intros H. exists d. split; [done|]. by apply Hprompt.
    + intros (d0 & [= <-] & H). by apply Hprompt.
    + intros H. right. exists d. split; [done|]. by apply Hagree.
    + intros [[=] | (d0 & [= <-] & H)]. by apply Hagree.
  - exists Agreement. split; [done|]. repeat split; try done.
    + by intros (d & [=] & _).
    + by intros (d & [=] & _).
    + by left.
Qed.

Lemma start_falls_back_to_durable_store_witness :
  let w := run [EnvFileLost] linked in
  bot_start false 4 "42" w = (Agreement, w) ∧
  ∃ screen,
    bot_start true 4 "42" w = (screen, snd (api_user_get 4 "42" w)) ∧
    (screen = MainMenu ↔
     ∃ d, db w !! "42" = Some d ∧ isAgreed d = true ∧ has_token d) ∧
    (screen = ConnectPrompt ↔
     ∃ d, db w !! "42" = Some d ∧ isAgreed d = true ∧ ¬ has_token d) ∧
    (screen = Agreement ↔
     db w !! "42" = None ∨ ∃ d, db w !! "42" = Some d ∧ isAgreed d = false).
Proof.
  apply (start_falls_back_to_durable_store 4 "42" (run [EnvFileLost] linked)).
  vm_compute. reflexivity.
Defined.

(** X26: the connection check reads the durable store. After a successful
    callback it answers connected, with the login GitHub returned, whatever
    happened to the snapshot file (present, lost, or not writable), and it
    changes nothing. *)
Theorem check_connection_after_callback (up : Upstream) (now : Z)
    (code id token : string) (profile : Profile) (w : World) :
  code ≠ "" → id ≠ "" →
  post_access_token up code = Returned (Some token) → token ≠ "" →
  get_github_user up token = Returned profile →
  let w1 := snd (auth_github_callback up now (Some code) (Some id) w) in
  check_github_connection id w1 = (Connected (Some (gh_login profile)), w1).
Proof.
  intros Hcode Hid Hpost Hne Hget. cbv zeta.
  rewrite (callback_run up now code id token profile w) by done. cbn [snd].
  unfold check_github_connection, User_findOne. cbn [db log_call].
  rewrite wrote_db. cbn [db set_db]. rewrite lookup_insert_eq. cbn.
  by rewrite (proj2 (String.eqb_neq _ _) Hne).
Qed.

Lemma check_connection_after_callback_witness :
  let w1 := snd (auth_github_callback octocat 5 (Some "c0de") (Some "42")
                   agreed_then_readonly) in
  check_github_connection "42" w1 = (Connected (Some "octocat"), w1).
Proof.
  apply (check_connection_after_callback octocat 5 "c0de" "42" "gho_16C7e42F292c"
           (mkProfile 583231 "octocat") agreed_then_readonly);
    (discriminate || reflexivity).
Defined.

(** ** Snapshot entries through later operations *)

Lemma wrote_is_Some now key value w k :
  is_Some (cache_of (file w) !! k) →
  is_Some (cache_of (file (wrote now key value w)) !! k).
Proof.
  intros Hk. unfold wrote. destruct (writable w); [|done]. cbn.
  rewrite lookup_insert. case_decide; [by eexists|].
  rewrite lookup_insert. case_decide; [by eexists|done].
Qed.

(** What the callback does to the stores: nothing, or the upsert of the
    linked record followed by its write to the snapshot. *)
Lemma callback_cases up now query_code query_state w :
  (db (snd (auth_github_callback up now query_code query_state w)) = db w ∧
   file (snd (auth_github_callback up now query_code query_state w)) = file w) ∨
  ∃ code id token profile,
    present query_state = Some id ∧ token ≠ "" ∧
    snd (auth_github_callback up now query_code query_state w)
    = log_call (TelegramSendMessage id)
        (wrote now ("user_" +:+ id)
           (JUser (mkUser id (link_data now (gh_id profile) token (gh_login profile)
                                (default (schema_defaults now) (db w !! id)))))
           (set_db (<[id := link_data now (gh_id profile) token (gh_login profile)
                              (default (schema_defaults now) (db w !! id))]> (db w))
              (log_call (GetGithubUser token) (log_call (PostAccessToken code) w)))).
Proof.
  destruct (present query_code) as [code|] eqn:Hcode.
  2:{ left. rewrite callback_missing_parameter_run; [done|]. by left. }
  destruct (present query_state) as [id|] eqn:Hstate.
  2:{ left. rewrite callback_missing_parameter_run; [done|]. by right. }
  apply present_Some in Hcode as [-> Hcode].
  pose proof Hstate as Hstate'. apply present_Some in Hstate as [-> Hid].
  destruct (callback_provider_failures_run up now code id w Hcode Hid)
    as (Hthrow & Hnone & Hprofile).
  destruct (post_access_token up code) as [t|e] eqn:Hpost.
  2:{ left. by rewrite (Hthrow e). }
  destruct (present t) as [token|] eqn:Ht.
  2:{ left. by rewrite (Hnone t). }
  apply present_Some in Ht as [-> Hne].
  destruct (get_github_user up token) as [profile|e] eqn:Hget.
  2:{ left. by rewrite (Hprofile token e). }
  right. exists code, id, token, profile. split; [done|]. split; [done|].
  by rewrite (callback_run up now code id token profile w).
Qed.

(** No operation removes an entry of the snapshot; only the loss or the
    damage of the file does. *)
Lemma step_keeps_entry o w k :
  keeps_file o = true →
  is_Some (cache_of (file w) !! k) → is_Some (cache_of (file (step o w)) !! k).
Proof.
  intros Ho Hk.
  destruct o as [now id|now id|cfg now q|up now code state|up now id|up args id| | |b];
    cbn [step]; try done.
  - (* agreement *)
    destruct (cache_of (file w) !! ("user_" +:+ id)) as [v|] eqn:Hc.
    { by rewrite (api_user_agree_hit now id w v). }
    destruct (decide (id = "")) as [->|Hid].
    { destruct (api_user_agree_empty_id now w) as [msg ->]. done. }
    destruct (db w !! id) as [d|] eqn:Hd.
    + rewrite (api_user_agree_updates now id w d) by done. by apply wrote_is_Some.
    + rewrite (api_user_agree_creates now id w) by done. by apply wrote_is_Some.
  - (* getUser *)
    destruct (cache_of (file w) !! ("user_" +:+ id)) as [v|] eqn:Hc.
    { by rewrite (api_user_get_hit now id w v). }
    rewrite (api_user_get_miss now id w Hc).
    destruct (db w !! id); [|done]. by apply wrote_is_Some.
  - (* beginAuthorization *)
    unfold auth_github, run_handler, bind.
    destruct (present q) as [id|]; [|done].
    rewrite writeCache_wrote. by apply wrote_is_Some.
  - (* completeAuthorization *)
    destruct (callback_cases up now code state w)
      as [[_ ->]|(c & id & token & profile & _ & _ & ->)]; [done|].
    cbn [file log_call]. by apply wrote_is_Some.
  - (* listRepositories *)
    destruct (db w !! id) as [d|] eqn:Hd.
    2:{ by rewrite repos_no_record. }
    destruct (present (githubAccessToken d)) as [token|] eqn:Htok.
    2:{ by rewrite (repos_no_token up now id w d). }
    apply present_Some in Htok as [Htok Hne].
    destruct (fresh_payload now (cache_of (file w) !! ("repos_" +:+ id)))
      as [payload|] eqn:Hfresh.
    { apply fresh_payload_Some in Hfresh as (c & Hc & Hfresh).
      by rewrite (repos_hit up now id w d token payload c). }
    rewrite (repos_miss up now id w d token) by done.
    destruct (get_user_repos up token) as [repos|e]; [|done].
    cbn zeta. destruct (String.eqb id ""); [done|]. cbn [snd].
    by do 2 apply wrote_is_Some.
  - (* createRepository *)
    by rewrite (proj1 (bot_newrepo_keeps_stores up args id w)).
Qed.

Lemma run_keeps_entry ops w k :
  forallb keeps_file ops = true →
  is_Some (cache_of (file w) !! k) → is_Some (cache_of (file (run ops w)) !! k).
Proof.
  revert w. induction ops as [|o ops IH]; intros w Hops Hk; [done|].
  cbn in Hops. apply andb_prop in Hops as [Ho Hops].
  cbn. apply IH; [done|]. by apply step_keeps_entry.
Qed.

(** X5: an agreement cannot be repeated. When the terms agreement succeeds
    and the snapshot file can be written, then after any further operations
    during which the file is neither lost nor damaged, an agreement of the
    same chat identity finds the [user_] entry, fails with 500 "user.save
    is not a function" and changes nothing. *)
Theorem agree_succeeds_once (t1 t2 : Z) (id : string) (w w1 : World)
    (ops : list Op) :
  writable w = true →
  api_user_agree t1 id w = (RJson 200 (BSuccess "Agreement accepted"), w1) →
  forallb keeps_file ops = true →
  api_user_agree t2 id (run ops w1)
  = (RJson 500 (BFailure "user.save is not a function"), run ops w1).
Proof.
  intros Hw H1 Hops.
  assert (is_Some (cache_of (file w1) !! ("user_" +:+ id))) as Hentry.
  { destruct (cache_of (file w) !! ("user_" +:+ id)) as [v|] eqn:Hc.
    { by rewrite (api_user_agree_hit t1 id w v) in H1. }
    destruct (decide (id = "")) as [->|Hid].
    { destruct (api_user_agree_empty_id t1 w) as [msg Hmsg]. by rewrite Hmsg in H1. }
    destruct (db w !! id) as [d|] eqn:Hd.
    - rewrite (api_user_agree_updates t1 id w d) in H1 by done.
      injection H1 as <-. rewrite wrote_file by done.
      rewrite written_lookup by auto with keys. by eexists.
    - rewrite (api_user_agree_creates t1 id w) in H1 by done.
      injection H1 as <-. rewrite wrote_file by done.
      rewrite written_lookup by auto with keys. by eexists. }
  destruct (run_keeps_entry ops w1 _ Hops Hentry) as [v Hv].
  by apply (api_user_agree_hit t2 id _ v).
Qed.

Lemma agree_succeeds_once_witness :
  let ops := [OpGetUser 2 "42";
              OpCompleteAuthorization octocat 3 (Some "c0de") (Some "42");
              EnvWritable false; OpListRepositories octocat 4 "42"] in
  api_user_agree 5 "42" (run ops (snd (api_user_agree 1 "42" initial)))
  = (RJson 500 (BFailure "user.save is not a function"),
     run ops (snd (api_user_agree 1 "42" initial))).
Proof.
  apply (agree_succeeds_once 1 5 "42" initial (snd (api_user_agree 1 "42" initial))
           [OpGetUser 2 "42";
            OpCompleteAuthorization octocat 3 (Some "c0de") (Some "42");
            EnvWritable false; OpListRepositories octocat 4 "42"]).
  - reflexivity.
  - vm_compute. reflexivity.
  - reflexivity.
Defined.

Lemma unagreed_same_stores id w w' :
  db w' = db w → file w' = file w →
  unagreed_in_both id w → unagreed_in_both id w'.
Proof. unfold unagreed_in_both. by intros -> ->. Qed.

Lemma unagreed_log_call id c w :
  unagreed_in_both id w → unagreed_in_both id (log_call c w).
Proof. done. Qed.

Lemma unagreed_set_db id id0 d0 w :
  (id0 = id → isAgreed d0 = false) →
  unagreed_in_both id w → unagreed_in_both id (set_db (<[id0 := d0]> (db w)) w).
Proof.
  intros Hd0 [Hdb Hfile]. split; [|done].
  intros d. cbn. rewrite lookup_insert. case_decide.
  - intros [= <-]. by apply Hd0.
  - apply Hdb.
Qed.

Lemma unagreed_wrote id now key value w :
  (key = "user_" +:+ id → ∃ u, value = JUser u ∧ isAgreed (data u) = false) →
  unagreed_in_both id w → unagreed_in_both id (wrote now key value w).
Proof.
  intros Hv [Hdb Hfile]. unfold wrote. destruct (writable w); [|done].
  split; [done|]. cbn. rewrite lookup_insert_ne by auto with keys.
  rewrite lookup_insert. case_decide as Hkey; [|done].
  destruct (Hv Hkey) as (u & -> & Hu). by exists u.
Qed.

Lemma unagreed_other_user_key id id0 (P : Prop) :
  id0 ≠ id → "user_" +:+ id0 = "user_" +:+ id → P.
Proof. intros Hne Heq. by apply user_key_inj in Heq. Qed.

(** While the snapshot file is neither lost nor damaged, no operation makes
    a chat identity agreed that is agreed in neither store: the agreement
    itself stops at the snapshot entry. *)
Lemma step_keeps_unagreed o w id :
  keeps_file o = true → unagreed_in_both id w → unagreed_in_both id (step o w).
Proof.
  intros Ho Hun. pose proof Hun as [Hdb (u & Hu & Hagreed)].
  destruct o as [now id0|now id0|cfg now q|up now code state|up now id0|up args id0| | |b];
    cbn [step]; try done.
  - (* agreement *)
    destruct (cache_of (file w) !! ("user_" +:+ id0)) as [v|] eqn:Hc.
    { by rewrite (api_user_agree_hit now id0 w v). }
    assert (id0 ≠ id) as Hother by (intros ->; by rewrite Hu in Hc).
    destruct (decide (id0 = "")) as [->|Hid].
    { destruct (api_user_agree_empty_id now w) as [msg ->]. done. }
    destruct (db w !! id0) as [d|] eqn:Hd.
    + rewrite (api_user_agree_updates now id0 w d) by done. cbn [snd].
      apply unagreed_wrote; [apply unagreed_other_user_key, Hother|].
      by apply unagreed_set_db.
    + rewrite (api_user_agree_creates now id0 w) by done. cbn [snd].
      apply unagreed_wrote; [apply unagreed_other_user_key, Hother|].
      by apply unagreed_set_db.
  - (* getUser *)
    destruct (cache_of (file w) !! ("user_" +:+ id0)) as [v|] eqn:Hc.
    { by rewrite (api_user_get_hit now id0 w v). }
    assert (id0 ≠ id) as Hother by (intros ->; by rewrite Hu in Hc).
    rewrite (api_user_get_miss now id0 w Hc).
    destruct (db w !! id0); [|done]. cbn [snd].
    by apply unagreed_wrote; [apply unagreed_other_user_key, Hother|].
  - (* beginAuthorization *)
    unfold auth_github, run_handler, bind.
    destruct (present q) as [id0|]; [|done].
    rewrite writeCache_wrote. cbn [snd].
    apply unagreed_wrote; [|done]. intros Heq. by destruct (user_key_not_oauth id id0).
  - (* completeAuthorization *)
    destruct (callback_cases up now code state w)
      as [[Hd Hf]|(c & id0 & token & profile & _ & _ & ->)].
    { by apply (unagreed_same_stores id w). }
    apply unagreed_log_call.
    assert (id0 = id →
            isAgreed (link_data now (gh_id profile) token (gh_login profile)
                        (default (schema_defaults now) (db w !! id0))) = false) as Hlink.
    { intros ->. cbn. destruct (db w !! id) as [d|] eqn:Hd; [by apply Hdb|done]. }
    apply unagreed_wrote.
    + intros Heq%user_key_inj. eexists. split; [done|]. by apply Hlink.
    + apply (unagreed_set_db id id0 _ (log_call _ (log_call _ w))); done.
  - (* listRepositories *)
    destruct (db w !! id0) as [d|] eqn:Hd.
    2:{ by rewrite repos_no_record. }
    destruct (present (githubAccessToken d)) as [token|] eqn:Htok.
    2:{ by rewrite (repos_no_token up now id0 w d). }
    apply present_Some in Htok as [Htok Hne].
    destruct (fresh_payload now (cache_of (file w) !! ("repos_" +:+ id0)))
      as [payload|] eqn:Hfresh.
    { apply fresh_payload_Some in Hfresh as (c & Hc & Hfresh).
      by rewrite (repos_hit up now id0 w d token payload c). }
    rewrite (repos_miss up now id0 w d token) by done.
    destruct (get_user_repos up token) as [repos|e]; [|done].
    cbn zeta. destruct (String.eqb id0 ""); [done|]. cbn [snd].
    assert (id0 = id → isAgreed d = false) as Hd0.
    { intros ->. by apply Hdb. }
    apply unagreed_wrote.
    + intros Heq%user_key_inj. eexists. split; [done|]. by apply Hd0.
    + apply unagreed_wrote.
      * intros Heq. by destruct (user_key_not_repos id id0).
      * by apply (unagreed_set_db id id0 _ (log_call _ w)).
  - (* createRepository *)
    destruct (bot_newrepo_keeps_stores up args id0 w) as [Hf Hd].
    by apply (unagreed_same_stores id w).
Qed.

Lemma run_keeps_unagreed ops w id :
  forallb keeps_file ops = true →
  unagreed_in_both id w → unagreed_in_both id (run ops w).
Proof.
  revert w. induction ops as [|o ops IH]; intros w Hops Hun; [done|].
  cbn in Hops. apply andb_prop in Hops as [Ho Hops].
  cbn. apply IH; [done|]. by apply step_keeps_unagreed.
Qed.

(** X25: linking before agreeing leaves the sender at the agreement. After
    a successful callback for a chat identity that had not agreed, with a
    snapshot file that can be written, and after any further operations
    during which the file is neither lost nor damaged, [/start] answers
    with the agreement, and a terms agreement for that chat identity fails
    with 500 "user.save is not a function"; neither changes anything. *)
Theorem link_before_agreement_blocks_agreement (up : Upstream) (reachable : bool)
    (now t t' : Z) (code id token : string) (profile : Profile) (w : World)
    (ops : list Op) :
  code ≠ "" → id ≠ "" →
  post_access_token up code = Returned (Some token) → token ≠ "" →
  get_github_user up token = Returned profile →
  writable w = true →
  (∀ d, db w !! id = Some d → isAgreed d = false) →
  forallb keeps_file ops = true →
  let w2 := run ops (snd (auth_github_callback up now (Some code) (Some id) w)) in
  bot_start reachable t id w2 = (Agreement, w2) ∧
  api_user_agree t' id w2
  = (RJson 500 (BFailure "user.save is not a function"), w2).
Proof.
  intros Hcode Hid Hpost Hne Hget Hw Hnot Hops. cbv zeta.
  assert (unagreed_in_both id
            (snd (auth_github_callback up now (Some code) (Some id) w))) as Hun.
  { rewrite (callback_run up now code id token profile w) by done. cbn [snd].
    set (d := link_data now (gh_id profile) token (gh_login profile)
                (default (schema_defaults now) (db w !! id))).
    assert (isAgreed d = false) as Hd.
    { unfold d. cbn. destruct (db w !! id) as [d0|] eqn:Hd0; [by apply Hnot|done]. }
    clearbody d. split.
    - intros d0. cbn [db log_call]. rewrite wrote_db. cbn [db set_db].
      rewrite lookup_insert_eq. by intros [= <-].
    - exists (mkUser id d). split; [|done]. cbn [file log_call].
      rewrite wrote_file by done. apply written_lookup. auto with keys. }
  destruct (run_keeps_unagreed ops _ id Hops Hun) as [_ (u & Hu & Hagreed)].
  split.
  - rewrite (bot_start_hit reachable t id _ _ Hu). cbn. by rewrite Hagreed.
  - by apply (api_user_agree_hit t' id _ _ Hu).
Qed.

Lemma link_before_agreement_blocks_agreement_witness :
  let ops := [OpListRepositories octocat 1 "42"; OpAgree 2 "42";
              OpCompleteAuthorization octocat 3 (Some "c1de") (Some "42");
              OpGetUser 4 "42"] in
  let w2 := run ops (snd (auth_github_callback octocat 0 (Some "c0de") (Some "42")
                            initial)) in
  bot_start true 5 "42" w2 = (Agreement, w2) ∧
  api_user_agree 6 "42" w2
  = (RJson 500 (BFailure "user.save is not a function"), w2).
Proof.
  apply (link_before_agreement_blocks_agreement octocat true 0 5 6 "c0de" "42"
           "gho_16C7e42F292c" (mkProfile 583231 "octocat") initial
           [OpListRepositories octocat 1 "42"; OpAgree 2 "42";
            OpCompleteAuthorization octocat 3 (Some "c1de") (Some "42");
            OpGetUser 4 "42"]);
    (discriminate || reflexivity).
Defined.
